(** * audiodumper: the command-line entry point [audiodumper/cli.py]

    A shallow embedding of [_default_output_path] and [main], together with
    the library calls they rely on ([os.path], [click], [ffmpeg],
    [tempfile], [librosa], [soundfile]), and the properties of the
    output-resolution, overwrite-confirmation and two-path pipeline logic.

    Conventions.  A Python [str] is a Rocq [string] holding the UTF-8
    encoding of the text; a Python [bytes] is a [string] of raw bytes.
    Integers are [Z].  The file system is a finite map from paths to file
    contents.  Every call that leaves the process is recorded in a trace;
    how each of them ends is given by an environment. *)

From Stdlib Require Import ZArith String Ascii DecimalString DecimalPos DecimalN Lia.
From stdpp Require Import gmap strings list.

Open Scope Z_scope.

(** ** Python string primitives *)

Module PyStr.

(** [s.rfind(c)] for a one-character needle: the highest index at which
    [c] occurs, or [-1]. *)
Fixpoint rfind (c : ascii) (s : string) : Z :=
  match s with
  | EmptyString => -1
  | String a r =>
      let k := rfind c r in
      if 0 <=? k then k + 1
      else if Ascii.eqb a c then 0 else -1
  end.

(** [s[i:]] for [0 <= i]. *)
Fixpoint slice_from (i : nat) (s : string) : string :=
  match i, s with
  | O, _ => s
  | S _, EmptyString => EmptyString
  | S i', String _ r => slice_from i' r
  end.

(** [s[:i]] for [0 <= i]. *)
Fixpoint slice_to (i : nat) (s : string) : string :=
  match i, s with
  | O, _ => EmptyString
  | S _, EmptyString => EmptyString
  | S i', String a r => String a (slice_to i' r)
  end.

(** [s[i:i+1]]: the empty string when [i] is out of range. *)
Definition slice1 (i : nat) (s : string) : string :=
  slice_to 1 (slice_from i s).

(** [c in s]. *)
Fixpoint contains (c : ascii) (s : string) : bool :=
  match s with
  | EmptyString => false
  | String a r => Ascii.eqb a c || contains c r
  end.

(** Some character of [s] differs from [c]. *)
Fixpoint has_other (c : ascii) (s : string) : bool :=
  match s with
  | EmptyString => false
  | String a r => negb (Ascii.eqb a c) || has_other c r
  end.

Definition len (s : string) : Z := Z.of_nat (String.length s).

End PyStr.

(** ** [os.path] on a POSIX system *)

Module PosixPath.
Import PyStr.

Definition sep : ascii := "/"%char.
Definition extsep : ascii := "."%char.

(** [posixpath.basename]:
    [i = p.rfind('/') + 1; return p[i:]]. *)
Definition basename (p : string) : string :=
  let i := rfind sep p + 1 in
  slice_from (Z.to_nat i) p.

(** The [while filenameIndex < dotIndex] loop of [genericpath._splitext]:
    [true] when it returns from inside the loop (a character that is not
    a dot was found), [false] when the loop runs out.  [n] is the number
    of iterations left, [dotIndex - filenameIndex]. *)
Fixpoint skip_leading_dots (p : string) (filenameIndex : nat) (n : nat) : bool :=
  match n with
  | O => false
  | S n' =>
      if negb (String.eqb (slice1 filenameIndex p) (String extsep EmptyString))
      then true
      else skip_leading_dots p (S filenameIndex) n'
  end.

(** [posixpath.splitext], that is [genericpath._splitext(p, '/', None, '.')]. *)
Definition splitext (p : string) : string * string :=
  let sepIndex := rfind sep p in
  let dotIndex := rfind extsep p in
  if sepIndex <? dotIndex then
    let filenameIndex := sepIndex + 1 in
    if skip_leading_dots p (Z.to_nat filenameIndex)
                         (Z.to_nat (dotIndex - filenameIndex))
    then (slice_to (Z.to_nat dotIndex) p, slice_from (Z.to_nat dotIndex) p)
    else (p, EmptyString)
  else (p, EmptyString).

End PosixPath.

(** ** [_default_output_path] *)

Definition _default_output_path (input_path : string) : string :=
  let '(base, _ext) := PosixPath.splitext (PosixPath.basename input_path) in
  base +:+ ".wav".


(** ** Formatting *)

(** The format specification [+d]: a decimal integer with an explicit
    sign, [+] for zero and positive values. *)
Definition format_plus_d (n : Z) : string :=
  (if n <? 0 then "-" else "+") +:+ NilZero.string_of_uint (N.to_uint (Z.abs_N n)).

(** Truth value of a [str]: false exactly for the empty string. *)
Definition truthy (s : string) : bool :=
  match s with EmptyString => false | String _ _ => true end.

(** ** [bytes.decode('utf-8', errors='ignore')]

    CPython's decoder reports each ill-formed sequence to the error
    handler, which for [ignore] drops it and resumes right after it: one
    byte for an invalid start byte, the bytes read so far for an invalid
    continuation byte, everything left for a sequence cut by the end of the
    data.  The result, a [str], is given by its UTF-8 encoding. *)

Module Utf8.

Definition byte (c : ascii) : Z := Z.of_N (N_of_ascii c).

Definition is_continuation (c : ascii) : bool :=
  (128 <=? byte c) && (byte c <? 192).

(** Second byte of a three-byte sequence led by [b0]: [E0] needs [A0..BF]
    (no overlong form), [ED] needs [80..9F] (no surrogate). *)
Definition second_of_3 (b0 : Z) (c1 : ascii) : bool :=
  is_continuation c1 &&
  negb (if byte c1 <? 160 then b0 =? 224 else b0 =? 237).

(** Second byte of a four-byte sequence led by [b0]: [F0] needs [90..BF],
    [F4] needs [80..8F]. *)
Definition second_of_4 (b0 : Z) (c1 : ascii) : bool :=
  is_continuation c1 &&
  negb (if byte c1 <? 144 then b0 =? 240 else b0 =? 244).

Fixpoint decode_ignore (s : string) : string :=
  match s with
  | EmptyString => EmptyString
  | String c0 t1 =>
      let b0 := byte c0 in
      if b0 <? 128 then String c0 (decode_ignore t1)
      else if b0 <? 194 then decode_ignore t1
      else if b0 <? 224 then
        match t1 with
        | EmptyString => EmptyString
        | String c1 t2 =>
            if is_continuation c1
            then String c0 (String c1 (decode_ignore t2))
            else decode_ignore t1
        end
      else if b0 <? 240 then
        match t1 with
        | EmptyString => EmptyString
        | String c1 t2 =>
            if second_of_3 b0 c1 then
              match t2 with
              | EmptyString => EmptyString
              | String c2 t3 =>
                  if is_continuation c2
                  then String c0 (String c1 (String c2 (decode_ignore t3)))
                  else decode_ignore t2
              end
            else decode_ignore t1
        end
      else if b0 <? 245 then
        match t1 with
        | EmptyString => EmptyString
        | String c1 t2 =>
            if second_of_4 b0 c1 then
              match t2 with
              | EmptyString => EmptyString
              | String c2 t3 =>
                  if is_continuation c2 then
                    match t3 with
                    | EmptyString => EmptyString
                    | String c3 t4 =>
                        if is_continuation c3
                        then String c0 (String c1 (String c2 (String c3 (decode_ignore t4))))
                        else decode_ignore t3
                    end
                  else decode_ignore t2
              end
            else decode_ignore t1
        end
      else decode_ignore t1
  end.

End Utf8.

(** ** The world [main] runs in *)

(** Decoded audio: a sequence of samples, kept opaque. *)
Abbreviation samples := (list Z).

(** What a file holds.  The file system maps the path strings the program
    uses to contents: two spellings of one file ([./song.wav] and
    [song.wav], a link and its target) are two keys here, so what is stated
    about files is stated about the paths the program itself passes on,
    the output path and the name of the temporary file. *)
Inductive fdata : Type :=
| Blob (tag : string)                    (* any content already on disk *)
| EmptyFile                              (* a file just created *)
| WavStereo44k (pcm : samples)           (* wav, pcm_s16le, 2 channels, 44100 Hz *)
| WavPcm16 (y : samples) (sr : Z).       (* written by soundfile, subtype PCM_16 *)

Abbreviation filesystem := (gmap string fdata).

(** Calls that leave the process, in program order. *)
Inductive event : Type :=
| EvConfirm (prompt : string)
| EvEcho (msg : string)
| EvImport
| EvMkTemp (name : string)
| EvFfmpeg (src dst : string) (overwrite_output : bool)
| EvLoad (path : string)
| EvPitchShift (n_steps sr : Z)
| EvRemove (path : string)
| EvSfWrite (path : string) (sr : Z).

(** The exceptions that travel through [main]. *)
Inductive exn : Type :=
| Abort                                  (* click.Abort *)
| ClickException (message : string)
| FfmpegError (stderr : option string)   (* ffmpeg.Error and its [stderr] bytes *)
| OtherException (text : string).        (* any other Exception; [text] is str(exc) *)

Inductive confirm_result : Type := CYes | CNo | CAbort.

Inductive ffmpeg_result : Type :=
| FfDone (pcm : samples)
| FfError (stderr : option string)
| FfCrash (text : string).

(** What ffmpeg does when it is run without [-y] and finds a file at the
    output: it exits with an error, or it leaves the file and exits
    normally, or (a [y] reaches its own question on the inherited standard
    input) it replaces the file. *)
Inductive no_y_behaviour : Type := Refuses | Declines | Replaces.

(** Everything [main] does not decide itself: the answer typed at the
    prompt, what other processes do to the file system between the
    overwrite guard and the processing, and how each library call ends. *)
Record Env : Type := {
  confirm_answer : confirm_result;
  race : filesystem -> filesystem;
  deps_importable : bool;
  tmp_name : string + string;            (* inl text: the call raises *)
  ffmpeg_outcome : ffmpeg_result;
  existing_without_y : no_y_behaviour;
  load_outcome : string + (samples * Z);
  shift_outcome : samples -> Z -> Z -> string + samples;
  write_outcome : option string;         (* Some text: the call raises *)
  remove_outcome : string -> option string
}.

Record world : Type := {
  fs : filesystem;
  trace : list event
}.

Inductive result (A : Type) : Type :=
| Ok (a : A)
| Raise (e : exn).
Arguments Ok {A} a.
Arguments Raise {A} e.

(** State and exceptions. *)
Definition M (A : Type) : Type := world -> result A * world.

Definition ret {A} (a : A) : M A := fun w => (Ok a, w).

Definition bind {A B} (m : M A) (k : A -> M B) : M B :=
  fun w =>
    match m w with
    | (Ok a, w') => k a w'
    | (Raise e, w') => (Raise e, w')
    end.

Definition raise {A} (e : exn) : M A := fun w => (Raise e, w).

Notation "'let*' x ':=' m 'in' k" := (bind m (fun x => k))
  (at level 10, x name, m at level 100, k at level 200).
Notation "m ;;; k" := (bind m (fun _ => k))
  (at level 100, k at level 200, right associativity).

(** [try: body  except ...: handler]. *)
Definition try_except {A} (body : M A) (handler : exn -> M A) : M A :=
  fun w =>
    match body w with
    | (Ok a, w') => (Ok a, w')
    | (Raise e, w') => handler e w'
    end.

(** [try: body  finally: fin]. *)
Definition try_finally {A} (body : M A) (fin : M unit) : M A :=
  fun w =>
    match body w with
    | (r, w') =>
        match fin w' with
        | (Ok _, w'') => (r, w'')
        | (Raise e, w'') => (Raise e, w'')
        end
    end.

(** [try: body  except Exception: pass]. *)
Definition try_pass (body : M unit) : M unit :=
  try_except body (fun _ => ret tt).

Definition log (e : event) : M unit :=
  fun w => (Ok tt, {| fs := fs w; trace := trace w ++ [e] |}).

Definition get_fs : M filesystem := fun w => (Ok (fs w), w).

Definition put_fs (f : filesystem) : M unit :=
  fun w => (Ok tt, {| fs := f; trace := trace w |}).

(** [attempt m] runs [m] and hands back how it ended instead of raising. *)
Definition attempt {A} (m : M A) : M (result A) :=
  fun w => match m w with (r, w') => (Ok r, w') end.

(** ** The library calls *)

(** An ffmpeg-python output stream: the input file, the output file (always
    with [format='wav', acodec='pcm_s16le', ac=2, ar='44100'] here) and
    whether the global [-y] argument was added. *)
Record stream : Type := {
  src : string;
  dst : string;
  global_y : bool
}.

(** [ffmpeg.output(ffmpeg.input(filepath), path, ...)]. *)
Definition ffmpeg_output (filepath path : string) : stream :=
  {| src := filepath; dst := path; global_y := false |}.

(** [ffmpeg.overwrite_output(stream)]. *)
Definition overwrite_output (st : stream) : stream :=
  {| src := src st; dst := dst st; global_y := true |}.

Definition exists_in (f : filesystem) (path : string) : bool :=
  match f !! path with Some _ => true | None => false end.

Definition refusal (path : string) : string :=
  "File '" +:+ path +:+ "' already exists. Exiting.".

Section Main.

Variable env : Env.

(** [os.path.exists(path)]. *)
Definition path_exists (path : string) : M bool :=
  let* f := get_fs in ret (exists_in f path).

(** [os.remove(path)]. *)
Definition os_remove (path : string) : M unit :=
  log (EvRemove path) ;;;
  match remove_outcome env path with
  | Some text => raise (OtherException text)
  | None =>
      let* f := get_fs in
      if exists_in f path then put_fs (delete path f)
      else raise (OtherException "FileNotFoundError")
  end.

(** [click.confirm(text, default=False)]: the answer, or [click.Abort] when
    the input ends or is interrupted. *)
Definition click_confirm (text : string) : M bool :=
  log (EvConfirm text) ;;;
  match confirm_answer env with
  | CYes => ret true
  | CNo => ret false
  | CAbort => raise Abort
  end.

(** [click.echo(msg)]. *)
Definition click_echo (msg : string) : M unit := log (EvEcho msg).

(** [import librosa; import soundfile as sf]. *)
Definition import_deps : M unit :=
  log EvImport ;;;
  if deps_importable env then ret tt
  else raise (OtherException "No module named 'librosa'").

(** [with tempfile.NamedTemporaryFile(suffix='.wav', delete=False) as t]:
    an empty file is created under a name that is not in use, and stays. *)
Definition named_temporary_file : M string :=
  match tmp_name env with
  | inl text => raise (OtherException text)
  | inr stem =>
      let name := stem +:+ ".wav" in
      let* f := get_fs in
      if exists_in f name then raise (OtherException "FileExistsError")
      else log (EvMkTemp name) ;;; put_fs (<[name := EmptyFile]> f) ;;; ret name
  end.

(** [ffmpeg.run(st, capture_stdout=False, capture_stderr=True)]: raises
    [ffmpeg.Error] when ffmpeg exits with an error.  With [-y], or with
    nothing at the output, a successful decode writes the output; without
    [-y] and with a file there, ffmpeg itself decides. *)
Definition ffmpeg_run (st : stream) : M unit :=
  log (EvFfmpeg (src st) (dst st) (global_y st)) ;;;
  match ffmpeg_outcome env with
  | FfDone pcm =>
      let* f := get_fs in
      if negb (global_y st) && exists_in f (dst st)
      then
        match existing_without_y env with
        | Refuses => raise (FfmpegError (Some (refusal (dst st))))
        | Declines => ret tt
        | Replaces => put_fs (<[dst st := WavStereo44k pcm]> f)
        end
      else put_fs (<[dst st := WavStereo44k pcm]> f)
  | FfError stderr => raise (FfmpegError stderr)
  | FfCrash text => raise (OtherException text)
  end.

(** [librosa.load(path, sr=None, mono=True)]. *)
Definition librosa_load (path : string) : M (samples * Z) :=
  log (EvLoad path) ;;;
  match load_outcome env with
  | inl text => raise (OtherException text)
  | inr ysr => ret ysr
  end.

(** [librosa.effects.pitch_shift(y, n_steps=n_steps, sr=sr)]. *)
Definition pitch_shift (y : samples) (n_steps sr : Z) : M samples :=
  log (EvPitchShift n_steps sr) ;;;
  match shift_outcome env y n_steps sr with
  | inl text => raise (OtherException text)
  | inr y' => ret y'
  end.

(** [sf.write(path, y, sr, subtype='PCM_16')]: the file is opened for
    writing, whatever was there is replaced. *)
Definition sf_write (path : string) (y : samples) (sr : Z) : M unit :=
  log (EvSfWrite path sr) ;;;
  match write_outcome env with
  | Some text => raise (OtherException text)
  | None => let* f := get_fs in put_fs (<[path := WavPcm16 y sr]> f)
  end.

(** Other processes act on the file system. *)
Definition interference : M unit :=
  let* f := get_fs in put_fs (race env f).

(** ** [main] *)

(** Line 28: [output or _default_output_path(filepath)]. *)
Definition resolve_out_path (filepath : string) (output : option string) : string :=
  match output with
  | Some o => if truthy o then o else _default_output_path filepath
  | None => _default_output_path filepath
  end.

Definition confirm_prompt (out_path : string) : string :=
  "Output file '" +:+ out_path +:+ "' already exists. Overwrite?".

Definition aborted_msg : string :=
  "Aborted: output file exists and overwrite not confirmed.".

(** Lines 30-38: returns the final value of [overwrite]. *)
Definition overwrite_guard (out_path : string) (yes : bool) : M bool :=
  let overwrite := yes in
  let* ex := path_exists out_path in
  if ex && negb overwrite then
    try_except
      (let* ok := click_confirm (confirm_prompt out_path) in
       if negb ok then click_echo aborted_msg ;;; raise Abort
       else ret true)
      (fun e => raise e)
  else ret overwrite.

(** Lines 49-56. *)
Definition direct_path (filepath out_path : string) (overwrite : bool) : M unit :=
  let st := ffmpeg_output filepath out_path in
  if overwrite then ffmpeg_run (overwrite_output st)
  else ffmpeg_run st.

Definition missing_deps_msg : string :=
  "Missing optional dependencies for transpose: install 'librosa' and 'soundfile' (e.g. uv install . or pip install librosa soundfile)".

(** Lines 92-97, with the value [tmp] has when the [finally] clause runs. *)
Definition cleanup (tmp : option string) : M unit :=
  match tmp with
  | None => ret tt
  | Some t =>
      let* ex := path_exists t in
      if truthy t && ex then try_pass (os_remove t) else ret tt
  end.

(** Lines 74-91, the part of the [try] block after [tmp] is assigned. *)
Definition transpose_steps (filepath out_path tmp : string) (semitones : Z)
    (overwrite : bool) : M unit :=
  ffmpeg_run (overwrite_output (ffmpeg_output filepath tmp)) ;;;
  let* ysr := librosa_load tmp in
  let '(y, sr) := ysr in
  let* y_shifted := pitch_shift y semitones sr in
  let* ex := path_exists out_path in
  (if overwrite && ex then try_pass (os_remove out_path) else ret tt) ;;;
  sf_write out_path y_shifted sr.

(** Lines 61-97.  [tmp] is [None] until the temporary file has its name, so
    the [finally] clause sees [None] when the allocation itself raises. *)
Definition transpose_path (filepath out_path : string) (semitones : Z)
    (overwrite : bool) : M unit :=
  try_except import_deps (fun _ => raise (ClickException missing_deps_msg)) ;;;
  let* r := attempt named_temporary_file in
  match r with
  | Raise e => cleanup None ;;; raise e
  | Ok tmp =>
      try_finally
        (transpose_steps filepath out_path tmp semitones overwrite)
        (cleanup (Some tmp))
  end.

Definition wrote_msg (out_path : string) (semitones : option Z) : string :=
  let msg := "Wrote: " +:+ out_path in
  match semitones with
  | Some n => msg +:+ " (transpose: " +:+ format_plus_d n +:+ " semitones)"
  | None => msg
  end.

(** Lines 106-108 and the formatting of [stderr] in line 109: captured
    bytes are decoded, a missing attribute prints as [None]. *)
Definition stderr_str (stderr : option string) : string :=
  match stderr with
  | Some b => Utf8.decode_ignore b
  | None => "None"
  end.

(** Lines 104-113: the three [except] clauses. *)
Definition handler (e : exn) : M unit :=
  match e with
  | FfmpegError stderr =>
      raise (ClickException ("ffmpeg error: " +:+ stderr_str stderr))
  | ClickException m => raise (ClickException m)
  | Abort => raise (ClickException ("Failed processing file: " +:+ ""))
  | OtherException text => raise (ClickException ("Failed processing file: " +:+ text))
  end.

Definition main (filepath : string) (output : option string)
    (transpose : option Z) (yes : bool) : M unit :=
  let out_path := resolve_out_path filepath output in
  let* overwrite := overwrite_guard out_path yes in
  interference ;;;
  let semitones := transpose in
  try_except
    ((match semitones with
      | None => direct_path filepath out_path overwrite
      | Some n => transpose_path filepath out_path n overwrite
      end) ;;;
     click_echo (wrote_msg out_path semitones))
    handler.

(** ** The process

    click runs [main] in standalone mode: [click.Abort] prints [Aborted!]
    on the error stream, a [ClickException] prints [Error: <message>]
    there, both end the process with status 1. *)

Record outcome : Type := {
  exit_code : Z;
  stderr_text : list string;
  final : world
}.

Definition finish (rw : result unit * world) : outcome :=
  match rw with
  | (Ok _, w) => {| exit_code := 0; stderr_text := []; final := w |}
  | (Raise Abort, w) =>
      {| exit_code := 1; stderr_text := ["Aborted!"]; final := w |}
  | (Raise (ClickException m), w) =>
      {| exit_code := 1; stderr_text := ["Error: " +:+ m]; final := w |}
  | (Raise _, w) =>
      {| exit_code := 1; stderr_text := ["Traceback (most recent call last):"]; final := w |}
  end.

Definition run (filepath : string) (output : option string)
    (transpose : option Z) (yes : bool) (fs0 : filesystem) : outcome :=
  finish (main filepath output transpose yes {| fs := fs0; trace := [] |}).

End Main.

(** ** Reading a run *)

(** The lines printed with [click.echo]. *)
Definition echoed (t : list event) : list string :=
  omap (fun e => match e with EvEcho m => Some m | _ => None end) t.

(** The events by which the program itself creates, replaces or removes a
    file. *)
Definition touches_files (e : event) : bool :=
  match e with
  | EvMkTemp _ | EvFfmpeg _ _ _ | EvRemove _ | EvSfWrite _ _ => true
  | _ => false
  end.

Definition file_events (t : list event) : list event := List.filter touches_files t.

(** The transcode invocations. *)
Definition transcodes (t : list event) : list event :=
  List.filter (fun e => match e with EvFfmpeg _ _ _ => true | _ => false end) t.

(** No line break in the text. *)
Definition single_line (s : string) : bool :=
  negb (PyStr.contains "010"%char s).


(** ** Vocabulary for the statements *)

(** The overwrite guard lets the run go on: nothing is at the output path,
    or [--yes] was given, or the prompt was answered with yes. *)
Definition guard_passes (env : Env) (yes : bool) (fs0 : filesystem)
    (out_path : string) : bool :=
  negb (exists_in fs0 out_path) || yes ||
  match confirm_answer env with CYes => true | _ => false end.

(** The user was asked and said yes. *)
Definition confirmed (env : Env) (yes : bool) (fs0 : filesystem)
    (out_path : string) : bool :=
  exists_in fs0 out_path && negb yes &&
  match confirm_answer env with CYes => true | _ => false end.

(** What the guard prints before the run goes on (or stops). *)
Definition guard_events (yes : bool) (fs0 : filesystem) (out_path : string)
    : list event :=
  if exists_in fs0 out_path && negb yes
  then [EvConfirm (confirm_prompt out_path)]
  else [].

(** The prompts shown. *)
Definition prompts (t : list event) : list event :=
  List.filter (fun e => match e with EvConfirm _ => true | _ => false end) t.

(** All bytes are ASCII. *)
Fixpoint ascii_only (s : string) : bool :=
  match s with
  | EmptyString => true
  | String c r => (Utf8.byte c <? 128) && ascii_only r
  end.

(** ** Sample runs *)

Definition sample_env (answer : confirm_result) (deps : bool)
    (ff : ffmpeg_result) (rm : string -> option string)
    (rc : filesystem -> filesystem) : Env :=
  {| confirm_answer := answer;
     race := rc;
     deps_importable := deps;
     tmp_name := inr "/tmp/tmpk3v9x0qa";
     ffmpeg_outcome := ff;
     existing_without_y := Refuses;
     load_outcome := inr ([10; -20; 30], 44100);
     shift_outcome := fun y n sr => inr (List.map (Z.add n) y);
     write_outcome := None;
     remove_outcome := rm |}.

Definition no_race : filesystem -> filesystem := fun f => f.
Definition removable : string -> option string := fun _ => None.
Definition decoded : ffmpeg_result := FfDone [1; 2; 3; 4].

Definition sample_fs : filesystem := {[ "input.mp4" := Blob "video" ]}.
Definition sample_fs_out : filesystem := <["out.wav" := Blob "old"]> sample_fs.
Definition sample_fs_wav : filesystem := <["input.wav" := Blob "old"]> sample_fs.

(** The diagnostic of a failed decode, two lines as ffmpeg prints them. *)
Definition two_line_diagnostic : string :=
  "[mov,mp4 @ 0x5581] moov atom not found" +:+ String "010"%char
    ("input.mp4: Invalid data found when processing input" +:+ String "010"%char "").

(** Another process puts a file at [input.wav]. *)
Definition late_file : filesystem -> filesystem :=
  fun f => <["input.wav" := Blob "someone else's"]> f.

(** Weakest precondition of a computation started in [w]. *)
Definition wp {A} (m : M A) (w : world) (Q : result A -> world -> Prop) : Prop :=
  match m w with (r, w') => Q r w' end.

(** ** Further vocabulary *)

(** [p] is the name the temporary file gets. *)
Definition is_tmp (env : Env) (p : string) : bool :=
  match tmp_name env with
  | inr stem => String.eqb p (stem +:+ ".wav")
  | inl _ => false
  end.

(** Decode, load and shift all succeed for a transposition by [n]. *)
Definition shift_ready (env : Env) (n : Z) : bool :=
  match ffmpeg_outcome env with
  | FfDone _ =>
      match load_outcome env with
      | inr (y, sr) =>
          match shift_outcome env y n sr with
          | inr _ => true
          | inl _ => false
          end
      | inl _ => false
      end
  | _ => false
  end.

(** The ASCII characters of a byte string, in order. *)
Fixpoint keep_ascii (s : string) : string :=
  match s with
  | EmptyString => EmptyString
  | String c r =>
      if Utf8.byte c <? 128 then String c (keep_ascii r) else keep_ascii r
  end.

(** Everything works except the last write. *)
Definition write_fails_env : Env :=
  {| confirm_answer := CNo;
     race := no_race;
     deps_importable := true;
     tmp_name := inr "/tmp/tmpk3v9x0qa";
     ffmpeg_outcome := decoded;
     existing_without_y := Refuses;
     load_outcome := inr ([10; -20; 30], 44100);
     shift_outcome := fun y n sr => inr (List.map (Z.add n) y);
     write_outcome := Some "Error opening 'out.wav': System error.";
     remove_outcome := removable |}.

Definition sample_fs_song : filesystem := {[ "song.wav" := Blob "original" ]}.

(** The report of an unexpected exception. *)
Definition failed (text : string) : option string :=
  Some ("Error: Failed processing file: " +:+ text).

(** The one message a run leaves on the error stream, [None] for a run
    that succeeds: the first step that fails decides. *)
Definition expected_report (env : Env) (filepath : string)
    (output : option string) (transpose : option Z) (yes : bool)
    (fs0 : filesystem) : option string :=
  let out_path := resolve_out_path filepath output in
  if negb (guard_passes env yes fs0 out_path) then Some "Aborted!"
  else
    match transpose with
    | None =>
        match ffmpeg_outcome env with
        | FfDone _ =>
            if negb (yes || confirmed env yes fs0 out_path)
               && exists_in (race env fs0) out_path
            then
              match existing_without_y env with
              | Refuses =>
                  Some ("Error: ffmpeg error: " +:+ stderr_str (Some (refusal out_path)))
              | Declines | Replaces => None
              end
            else None
        | FfError stderr => Some ("Error: ffmpeg error: " +:+ stderr_str stderr)
        | FfCrash text => failed text
        end
    | Some n =>
        if negb (deps_importable env) then Some ("Error: " +:+ missing_deps_msg)
        else
          match tmp_name env with
          | inl text => failed text
          | inr stem =>
              if exists_in (race env fs0) (stem +:+ ".wav")
              then failed "FileExistsError"
              else
                match ffmpeg_outcome env with
                | FfDone _ =>
                    match load_outcome env with
                    | inl text => failed text
                    | inr (y, sr) =>
                        match shift_outcome env y n sr with
                        | inl text => failed text
                        | inr _ =>
                            match write_outcome env with
                            | Some text => failed text
                            | None => None
                            end
                        end
                    end
                | FfError stderr => Some ("Error: ffmpeg error: " +:+ stderr_str stderr)
                | FfCrash text => failed text
                end
          end
    end.

(** ** Variations of an environment *)

(** [env] with another behaviour of ffmpeg run without [-y]. *)
Definition with_existing (b : no_y_behaviour) (env : Env) : Env :=
  {| confirm_answer := confirm_answer env;
     race := race env;
     deps_importable := deps_importable env;
     tmp_name := tmp_name env;
     ffmpeg_outcome := ffmpeg_outcome env;
     existing_without_y := b;
     load_outcome := load_outcome env;
     shift_outcome := shift_outcome env;
     write_outcome := write_outcome env;
     remove_outcome := remove_outcome env |}.

(** [env] with other outcomes of [os.remove]. *)
Definition with_removals (rm : string -> option string) (env : Env) : Env :=
  {| confirm_answer := confirm_answer env;
     race := race env;
     deps_importable := deps_importable env;
     tmp_name := tmp_name env;
     ffmpeg_outcome := ffmpeg_outcome env;
     existing_without_y := existing_without_y env;
     load_outcome := load_outcome env;
     shift_outcome := shift_outcome env;
     write_outcome := write_outcome env;
     remove_outcome := rm |}.

(** ** Output and targets *)

(** What goes to standard output: the question of [click.confirm] and the
    lines of [click.echo]. *)
Definition stdout_events (t : list event) : list event :=
  List.filter
    (fun e => match e with EvConfirm _ | EvEcho _ => true | _ => false end) t.

(** The path an event creates, writes or removes. *)
Definition target (e : event) : option string :=
  match e with
  | EvMkTemp p | EvFfmpeg _ p _ | EvRemove p | EvSfWrite p _ => Some p
  | _ => None
  end.

(** UTF-8, from code points to bytes. *)
Definition chr (z : Z) : ascii := ascii_of_N (Z.to_N z).

Definition encode1 (cp : Z) : string :=
  if cp <? 128 then String (chr cp) EmptyString
  else if cp <? 2048 then
    String (chr (192 + cp / 64)) (String (chr (128 + cp mod 64)) EmptyString)
  else if cp <? 65536 then
    String (chr (224 + cp / 4096))
      (String (chr (128 + (cp / 64) mod 64))
         (String (chr (128 + cp mod 64)) EmptyString))
  else
    String (chr (240 + cp / 262144))
      (String (chr (128 + (cp / 4096) mod 64))
         (String (chr (128 + (cp / 64) mod 64))
            (String (chr (128 + cp mod 64)) EmptyString))).

Fixpoint encode (cps : list Z) : string :=
  match cps with
  | [] => EmptyString
  | cp :: r => encode1 cp +:+ encode r
  end.

(** A Unicode scalar value: a code point that is not a surrogate. *)
Definition scalar (cp : Z) : bool :=
  (0 <=? cp) && (cp <=? 1114111) && negb ((55296 <=? cp) && (cp <=? 57343)).

(** * Properties *)

(** ** Stepping through a run *)

Section WpRules.

Context {A B : Type}.

Lemma wp_ret (a : A) w (Q : result A -> world -> Prop) :
  Q (Ok a) w -> wp (ret a) w Q.
Proof. done. Qed.

Lemma wp_raise (e : exn) w (Q : result A -> world -> Prop) :
  Q (Raise e) w -> wp (raise e) w Q.
Proof. done. Qed.

Lemma wp_bind (m : M A) (k : A -> M B) w (Q : result B -> world -> Prop) :
  wp m w (fun r w' =>
    match r with
    | Ok a => wp (k a) w' Q
    | Raise e => Q (Raise e) w'
    end) ->
  wp (bind m k) w Q.
Proof. unfold wp, bind. by destruct (m w) as [[a|e] w']. Qed.

Lemma wp_try_except (body : M A) (h : exn -> M A) w (Q : result A -> world -> Prop) :
  wp body w (fun r w' =>
    match r with
    | Ok a => Q (Ok a) w'
    | Raise e => wp (h e) w' Q
    end) ->
  wp (try_except body h) w Q.
Proof. unfold wp, try_except. by destruct (body w) as [[a|e] w']. Qed.

Lemma wp_try_finally (body : M A) (fin : M unit) w (Q : result A -> world -> Prop) :
  wp body w (fun r w' =>
    wp fin w' (fun r' w'' =>
      match r' with
      | Ok _ => Q r w''
      | Raise e => Q (Raise e) w''
      end)) ->
  wp (try_finally body fin) w Q.
Proof.
  unfold wp, try_finally. destruct (body w) as [r w'].
  by destruct (fin w') as [[u|e] w''].
Qed.

Lemma wp_attempt (m : M A) w (Q : result (result A) -> world -> Prop) :
  wp m w (fun r w' => Q (Ok r) w') -> wp (attempt m) w Q.
Proof. unfold wp, attempt. by destruct (m w). Qed.

End WpRules.

Lemma wp_log (e : event) w (Q : result unit -> world -> Prop) :
  Q (Ok tt) {| fs := fs w; trace := trace w ++ [e] |} -> wp (log e) w Q.
Proof. done. Qed.

Lemma wp_get_fs w (Q : result filesystem -> world -> Prop) :
  Q (Ok (fs w)) w -> wp get_fs w Q.
Proof. done. Qed.

Lemma wp_put_fs (f : filesystem) w (Q : result unit -> world -> Prop) :
  Q (Ok tt) {| fs := f; trace := trace w |} -> wp (put_fs f) w Q.
Proof. done. Qed.

Lemma wp_run {A} (m : M A) w (P : result A * world -> Prop) :
  wp m w (fun r w' => P (r, w')) -> P (m w).
Proof. unfold wp. by destruct (m w). Qed.

Lemma truthy_wav (stem : string) : truthy (stem +:+ ".wav") = true.
Proof. by destruct stem. Qed.

(** Case analysis on the first undecided condition of a boolean test. *)
Ltac split_bool b :=
  lazymatch b with
  | andb ?x _ => split_bool x
  | orb ?x _ => split_bool x
  | negb ?x => split_bool x
  | _ => destruct b eqn:?; try congruence
  end.

Ltac wp_simpl := cbv beta iota; cbn [fs trace andb orb negb src dst global_y
                                     ffmpeg_output overwrite_output].

Ltac wp_step :=
  wp_simpl;
  lazymatch goal with
  | |- wp (bind _ _) _ _ => apply wp_bind
  | |- wp (ret _) _ _ => apply wp_ret
  | |- wp (raise _) _ _ => apply wp_raise
  | |- wp (log _) _ _ => apply wp_log
  | |- wp get_fs _ _ => apply wp_get_fs
  | |- wp (put_fs _) _ _ => apply wp_put_fs
  | |- wp (try_except _ _) _ _ => apply wp_try_except
  | |- wp (try_finally _ _) _ _ => apply wp_try_finally
  | |- wp (attempt _) _ _ => apply wp_attempt
  | |- wp (try_pass _) _ _ => unfold try_pass
  | |- wp (if truthy (_ +:+ ".wav") && _ then _ else _) _ _ => rewrite truthy_wav
  | |- wp (if ?b then _ else _) _ _ => split_bool b
  | |- wp (match ?x with _ => _ end) _ _ => destruct x eqn:?; try congruence
  | |- wp (click_echo _) _ _ => unfold click_echo
  | |- wp (path_exists _) _ _ => unfold path_exists
  | |- wp (os_remove _ _) _ _ => unfold os_remove
  | |- wp (click_confirm _ _) _ _ => unfold click_confirm
  | |- wp (import_deps _) _ _ => unfold import_deps
  | |- wp (named_temporary_file _) _ _ => unfold named_temporary_file
  | |- wp (ffmpeg_run _ _) _ _ => unfold ffmpeg_run
  | |- wp (librosa_load _ _) _ _ => unfold librosa_load
  | |- wp (pitch_shift _ _ _ _) _ _ => unfold pitch_shift
  | |- wp (sf_write _ _ _ _) _ _ => unfold sf_write
  | |- wp (interference _) _ _ => unfold interference
  | |- wp (overwrite_guard _ _ _) _ _ => unfold overwrite_guard
  | |- wp (direct_path _ _ _ _) _ _ => unfold direct_path
  | |- wp (transpose_path _ _ _ _ _) _ _ => unfold transpose_path
  | |- wp (transpose_steps _ _ _ _ _ _) _ _ => unfold transpose_steps
  | |- wp (cleanup _ _) _ _ => unfold cleanup
  | |- wp (handler _) _ _ => unfold handler
  | |- wp (main _ _ _ _ _) _ _ => unfold main
  end.

Ltac wp_go :=
  repeat wp_step; wp_simpl;
  cbn [finish exit_code stderr_text final fs trace app].

Ltac start_run := unfold run; apply wp_run.

(** Evaluate what hypothesis [H] says about the guard with the equations
    collected on the way. *)
Ltac settle H :=
  unfold guard_passes, guard_events, confirmed in H;
  repeat match goal with
         | E : ?l = _ |- _ =>
             lazymatch E with
             | H => fail
             | _ => tryif is_var l then fail
                    else match type of H with context [l] => rewrite E in H end
             end
         end;
  cbn [andb orb negb app] in H.

Lemma exists_in_None (f : filesystem) (path : string) :
  f !! path = None <-> exists_in f path = false.
Proof. unfold exists_in. destruct (f !! path); split; intros H; done. Qed.

Lemma contains_app (c : ascii) (a b : string) :
  PyStr.contains c (a +:+ b) = PyStr.contains c a || PyStr.contains c b.
Proof.
  induction a as [|x a IH]; [done |].
  simpl. by rewrite IH, orb_assoc.
Qed.

(** ** Shared tools *)

Ltac use_eqs_in H :=
  repeat match goal with
         | E : ?l = _ |- _ =>
             lazymatch E with
             | H => fail
             | _ => tryif is_var l then fail
                    else match type of H with context [l] => rewrite E in H end
             end
         end.

Ltac tmp_distinct H :=
  unfold is_tmp in H;
  try match goal with
      | E : tmp_name _ = _ |- _ => rewrite E in H
      end;
  try apply String.eqb_neq in H.

Lemma exists_in_insert_eq (f : filesystem) (p : string) (d : fdata) :
  exists_in (<[p := d]> f) p = true.
Proof. unfold exists_in. by rewrite lookup_insert_eq. Qed.

Lemma exists_in_insert_ne (f : filesystem) (p q : string) (d : fdata) :
  p <> q -> exists_in (<[p := d]> f) q = exists_in f q.
Proof. intros H. unfold exists_in. by rewrite lookup_insert_ne. Qed.

Lemma exists_in_delete_ne (f : filesystem) (p q : string) :
  p <> q -> exists_in (delete p f) q = exists_in f q.
Proof. intros H. unfold exists_in. by rewrite lookup_delete_ne. Qed.

(** Bring every recorded existence test back to the file system it
    started from. *)
Ltac normalize_exists :=
  repeat match goal with
         | E : context [exists_in (<[?p := _]> _) ?p] |- _ =>
             rewrite exists_in_insert_eq in E
         | E : context [exists_in (<[?p := _]> _) ?q] |- _ =>
             rewrite (exists_in_insert_ne _ p q) in E by assumption
         | E : context [exists_in (delete ?p _) ?q] |- _ =>
             rewrite (exists_in_delete_ne _ p q) in E by assumption
         end.

Ltac subst_eq_in H :=
  match goal with
  | E : ?l = ?v |- _ =>
      lazymatch E with
      | H => fail
      | _ =>
          tryif is_var l then fail
          else tryif constr_eq l v then fail
          else
            match type of H with
            | context [l] =>
                let T := type of H in
                let T' := eval pattern l in T in
                lazymatch T' with
                | ?P _ =>
                    let H' := fresh in
                    pose proof (eq_ind l P H v E) as H';
                    clear H; rename H' into H; cbv beta in H
                end
            end
      end
  end.

Ltac evaluate H :=
  repeat first [ subst_eq_in H
               | progress (cbv beta iota in H; cbn [andb orb negb] in H) ].

(** What a run reports is what [expected_report] says. *)
Lemma run_report (env : Env) (filepath : string)
    (output : option string) (transpose : option Z) (yes : bool)
    (fs0 : filesystem) :
  let o := run env filepath output transpose yes fs0 in
  match expected_report env filepath output transpose yes fs0 with
  | None => exit_code o = 0 /\ stderr_text o = []
  | Some m => exit_code o = 1 /\ stderr_text o = [m]
  end.
Proof.
  intros o. subst o.
  remember (expected_report env filepath output transpose yes fs0) as r eqn:Hr.
  start_run. wp_go.
  all: unfold expected_report, guard_passes, confirmed, failed in Hr;
       cbv zeta in Hr; evaluate Hr; subst r.
  all: by split.
Qed.

Lemma with_removals_report (rm : string -> option string) (env : Env)
    (filepath : string) (output : option string) (transpose : option Z)
    (yes : bool) (fs0 : filesystem) :
  expected_report (with_removals rm env) filepath output transpose yes fs0
  = expected_report env filepath output transpose yes fs0.
Proof. reflexivity. Qed.

Lemma exists_in_Some (f : filesystem) (path : string) :
  exists_in f path = true -> is_Some (f !! path).
Proof. unfold exists_in. intros H. destruct (f !! path); [by eexists | done]. Qed.

(** ** The default output path *)

Section PathLemmas.
Import PyStr PosixPath.

Lemma append_nil (b : string) : EmptyString +:+ b = b.
Proof. reflexivity. Qed.

Lemma append_cons (x : ascii) (a b : string) :
  String x a +:+ b = String x (a +:+ b).
Proof. reflexivity. Qed.

Lemma rfind_lb (c : ascii) (s : string) : -1 <= rfind c s.
Proof.
  induction s as [|a r IH]; simpl; [lia |].
  destruct (0 <=? rfind c r) eqn:E; [apply Z.leb_le in E; lia |].
  destruct (Ascii.eqb a c); lia.
Qed.

Lemma rfind_absent (c : ascii) (s : string) :
  contains c s = false -> rfind c s = -1.
Proof.
  induction s as [|a r IH]; simpl; [done |].
  intros [Ha Hr]%orb_false_elim. rewrite (IH Hr). simpl. by rewrite Ha.
Qed.

Lemma rfind_neg_absent (c : ascii) (s : string) :
  rfind c s < 0 -> contains c s = false.
Proof.
  induction s as [|a r IH]; simpl; [done |].
  destruct (0 <=? rfind c r) eqn:E.
  - apply Z.leb_le in E. lia.
  - apply Z.leb_gt in E. rewrite (IH E).
    destruct (Ascii.eqb a c); [lia | done].
Qed.

Lemma rfind_app_last (c : ascii) (a b : string) :
  contains c b = false -> rfind c (a +:+ String c b) = len a.
Proof.
  intros Hb. induction a as [|x a IH].
  - rewrite append_nil. simpl. rewrite (rfind_absent _ _ Hb). simpl.
    by rewrite Ascii.eqb_refl.
  - rewrite append_cons. simpl. rewrite IH. unfold len. change (String.length (String x a)) with (S (String.length a)).
    destruct (0 <=? Z.of_nat (String.length a)) eqn:E; [lia |].
    apply Z.leb_gt in E. lia.
Qed.

Lemma slice_from_app (a b : string) : slice_from (String.length a) (a +:+ b) = b.
Proof.
  induction a as [|x a IH]; [by rewrite append_nil |].
  rewrite append_cons. exact IH.
Qed.

Lemma slice_to_app (a b : string) : slice_to (String.length a) (a +:+ b) = a.
Proof.
  induction a as [|x a IH]; [rewrite append_nil; by destruct b |].
  rewrite append_cons. simpl. by f_equal.
Qed.

Lemma contains_slice_to (c : ascii) (n : nat) (s : string) :
  contains c s = false -> contains c (slice_to n s) = false.
Proof.
  revert s. induction n as [|n IH]; intros [|a r]; simpl; try done.
  intros [Ha Hr]%orb_false_elim. by rewrite Ha, IH.
Qed.

Lemma app_assoc_one (pre : string) (a : ascii) (r : string) :
  pre +:+ String a r = (pre +:+ String a EmptyString) +:+ r.
Proof.
  induction pre as [|x pre IH]; [done |].
  rewrite !append_cons. by f_equal.
Qed.

Lemma length_app_one (pre : string) (a : ascii) :
  String.length (pre +:+ String a EmptyString) = S (String.length pre).
Proof.
  induction pre as [|x pre IH]; [done |].
  rewrite append_cons. simpl. by f_equal.
Qed.

Lemma skip_leading_dots_found (pre stem rest : string) :
  has_other extsep stem = true ->
  skip_leading_dots (pre +:+ stem +:+ rest) (String.length pre) (String.length stem) = true.
Proof.
  revert pre. induction stem as [|a r IH]; intros pre; [done |].
  rewrite append_cons. simpl String.length. cbn [skip_leading_dots has_other].
  unfold slice1. rewrite slice_from_app.
  change (slice_to 1 (String a (r +:+ rest))) with (String a EmptyString).
  change (String.eqb (String a EmptyString) (String extsep EmptyString))
    with (Ascii.eqb a extsep && true).
  rewrite andb_true_r.
  destruct (Ascii.eqb a extsep) eqn:Ea; [| done].
  simpl. intros Hr.
  rewrite (app_assoc_one pre a (r +:+ rest)).
  rewrite <- (length_app_one pre a). by apply IH.
Qed.

Lemma basename_plain (name : string) :
  contains sep name = false -> basename name = name.
Proof. intros H. unfold basename. by rewrite (rfind_absent _ _ H). Qed.

Lemma basename_dir (dir name : string) :
  contains sep name = false -> basename (dir +:+ String sep name) = name.
Proof.
  intros H. unfold basename. rewrite (rfind_app_last _ _ _ H). unfold len.
  replace (Z.to_nat (Z.of_nat (String.length dir) + 1))
    with (String.length (dir +:+ String sep EmptyString))
    by (rewrite length_app_one; lia).
  rewrite (app_assoc_one dir sep name). apply slice_from_app.
Qed.

Lemma contains_basename (p : string) : contains sep (basename p) = false.
Proof.
  unfold basename. induction p as [|a r IH]; simpl; [done |].
  pose proof (rfind_lb sep r) as Hlb.
  destruct (0 <=? rfind sep r) eqn:E.
  - apply Z.leb_le in E.
    replace (Z.to_nat (rfind sep r + 1 + 1)) with (S (Z.to_nat (rfind sep r + 1))) by lia.
    exact IH.
  - apply Z.leb_gt in E. pose proof (rfind_neg_absent _ _ E) as Hr.
    destruct (Ascii.eqb a sep) eqn:Ea; simpl.
    + exact Hr.
    + by rewrite Ea, Hr.
Qed.

Lemma splitext_suffix (stem ext : string) :
  contains sep stem = false -> contains sep ext = false ->
  contains extsep ext = false -> has_other extsep stem = true ->
  splitext (stem +:+ String extsep ext) = (stem, String extsep ext).
Proof.
  intros Hs He Hd Ho. unfold splitext.
  assert (Hsep : rfind sep (stem +:+ String extsep ext) = -1).
  { apply rfind_absent. rewrite contains_app, Hs. simpl. exact He. }
  rewrite Hsep, (rfind_app_last _ _ _ Hd). unfold len.
  replace (-1 <? Z.of_nat (String.length stem)) with true by (symmetry; apply Z.ltb_lt; lia).
  replace (Z.to_nat (-1 + 1)) with (String.length EmptyString) by reflexivity.
  replace (Z.to_nat (Z.of_nat (String.length stem) - (-1 + 1))) with (String.length stem) by lia.
  change (stem +:+ String extsep ext) with (EmptyString +:+ stem +:+ String extsep ext) at 1.
  rewrite (skip_leading_dots_found EmptyString stem (String extsep ext) Ho).
  rewrite Nat2Z.id. by rewrite slice_to_app, slice_from_app.
Qed.

Lemma splitext_no_dot (name : string) :
  contains extsep name = false -> splitext name = (name, EmptyString).
Proof.
  intros H. unfold splitext. rewrite (rfind_absent _ _ H).
  pose proof (rfind_lb sep name).
  by replace (rfind sep name <? -1) with false by (symmetry; apply Z.ltb_ge; lia).
Qed.

Lemma contains_splitext (q : string) :
  contains sep q = false -> contains sep (splitext q).1 = false.
Proof.
  intros H. unfold splitext.
  destruct (rfind sep q <? rfind extsep q); [| done].
  destruct (skip_leading_dots _ _ _); [| done].
  simpl. by apply contains_slice_to.
Qed.

End PathLemmas.

(** C5.  For an input [dir/stem.ext], with or without the directory part,
    the default output path is [stem.wav]; for a name without a dot it is
    the name followed by [.wav]; and it never has a directory part, so it
    is taken relative to the current directory.  [stem] may itself contain
    dots, as long as it is not made of dots only: the extension is what
    [os.path.splitext] splits off. *)
Theorem default_output_path_spec (dir stem ext : string) :
  PyStr.contains "/" stem = false ->
  PyStr.contains "/" ext = false ->
  PyStr.contains "." ext = false ->
  PyStr.has_other "." stem = true ->
  _default_output_path (dir +:+ "/" +:+ stem +:+ "." +:+ ext) = stem +:+ ".wav" /\
  _default_output_path (stem +:+ "." +:+ ext) = stem +:+ ".wav" /\
  (PyStr.contains "." stem = false ->
     _default_output_path (dir +:+ "/" +:+ stem) = stem +:+ ".wav" /\
     _default_output_path stem = stem +:+ ".wav") /\
  (forall p, PyStr.contains "/" (_default_output_path p) = false) /\
  _default_output_path "/a/b/song.mp3" = "song.wav".
Proof.
  intros Hs He Hd Ho.
  assert (Hname : PyStr.contains "/" (stem +:+ String "." ext) = false).
  { rewrite contains_app, Hs. simpl. exact He. }
  repeat split.
  - unfold _default_output_path.
    change (dir +:+ "/" +:+ stem +:+ "." +:+ ext)
      with (dir +:+ String "/"%char (stem +:+ String "."%char ext)).
    rewrite (basename_dir _ _ Hname). by rewrite splitext_suffix.
  - unfold _default_output_path.
    change (stem +:+ "." +:+ ext) with (stem +:+ String "."%char ext).
    rewrite (basename_plain _ Hname). by rewrite splitext_suffix.
  - unfold _default_output_path.
    change (dir +:+ "/" +:+ stem) with (dir +:+ String "/"%char stem).
    rewrite (basename_dir _ _ Hs). by rewrite splitext_no_dot.
  - unfold _default_output_path.
    rewrite (basename_plain _ Hs). by rewrite splitext_no_dot.
  - intros p. unfold _default_output_path.
    pose proof (contains_splitext _ (contains_basename p)) as H.
    destruct (PosixPath.splitext (PosixPath.basename p)) as [base e].
    simpl in H. unfold PosixPath.sep in H. by rewrite contains_app, H.
Qed.

Lemma default_output_path_spec_witness :
  _default_output_path ("/a/b" +:+ "/" +:+ "song" +:+ "." +:+ "mp3") = "song" +:+ ".wav" /\
  _default_output_path ("song" +:+ "." +:+ "mp3") = "song" +:+ ".wav" /\
  (PyStr.contains "." "song" = false ->
     _default_output_path ("/a/b" +:+ "/" +:+ "song") = "song" +:+ ".wav" /\
     _default_output_path "song" = "song" +:+ ".wav") /\
  (forall p, PyStr.contains "/" (_default_output_path p) = false) /\
  _default_output_path "/a/b/song.mp3" = "song.wav".
Proof.
  apply (default_output_path_spec "/a/b" "song" "mp3"); reflexivity.
Defined.

Example default_two_suffixes :
  _default_output_path "x/archive.tar.gz" = "archive.tar.wav".
Proof. reflexivity. Qed.

Example default_dotfile : _default_output_path "/home/u/.bashrc" = ".bashrc.wav".
Proof. reflexivity. Qed.

(** ** The overwrite guard *)

(** C1.  When the resolved output path exists, [--yes] is not given and the
    prompt is not answered with yes, the run leaves the file system as it
    found it, performs no file operation, reports the abort (the line
    [Aborted: ...] when the answer is no, [Aborted!] on the error stream
    in every case) and ends with status 1. *)
Theorem declined_overwrite_aborts (env : Env) (filepath : string)
    (output : option string) (transpose : option Z) (fs0 : filesystem) :
  exists_in fs0 (resolve_out_path filepath output) = true ->
  confirm_answer env <> CYes ->
  let o := run env filepath output transpose false fs0 in
  fs (final o) = fs0 /\
  file_events (trace (final o)) = [] /\
  (confirm_answer env = CNo -> echoed (trace (final o)) = [aborted_msg]) /\
  stderr_text o = ["Aborted!"] /\
  exit_code o = 1.
Proof.
  intros Hex Hans o. subst o. start_run.
  unfold main. apply wp_bind. unfold overwrite_guard.
  repeat wp_step; wp_simpl; try congruence.
  all: cbn [finish exit_code stderr_text final fs trace app]; by repeat split.
Qed.

Lemma declined_overwrite_aborts_witness :
  let o := run (sample_env CNo true decoded removable no_race)
               "input.mp4" (Some "out.wav") None false sample_fs_out in
  fs (final o) = sample_fs_out /\
  file_events (trace (final o)) = [] /\
  (CNo = CNo -> echoed (trace (final o)) = [aborted_msg]) /\
  stderr_text o = ["Aborted!"] /\
  exit_code o = 1.
Proof.
  apply (declined_overwrite_aborts (sample_env CNo true decoded removable no_race)
           "input.mp4" (Some "out.wav") None sample_fs_out).
  - vm_compute. reflexivity.
  - simpl. discriminate.
Defined.

(** C10.  With a transposition requested, an existing output path and no
    [--yes], the first thing the run does is prompt for confirmation; the
    import of the transpose dependencies comes right after a yes and not
    at all otherwise. *)
Theorem guard_precedes_capability_check (env : Env) (filepath : string)
    (output : option string) (n : Z) (fs0 : filesystem) :
  exists_in fs0 (resolve_out_path filepath output) = true ->
  let out_path := resolve_out_path filepath output in
  let o := run env filepath output (Some n) false fs0 in
  exists rest,
    trace (final o) = EvConfirm (confirm_prompt out_path) :: rest /\
    (confirm_answer env = CYes -> exists rest', rest = EvImport :: rest') /\
    (confirm_answer env <> CYes ->
       (EvImport ∉ rest) /\ stderr_text o = ["Aborted!"] /\ exit_code o = 1).
Proof.
  intros Hex out_path o. subst o out_path. start_run.
  wp_go; try congruence.
  all: eexists; split; [reflexivity |].
  all: split; [intros Hy; try congruence; eexists; reflexivity |].
  all: intros Hn; try congruence; repeat split; try done.
  all: rewrite list_elem_of_In; cbn; intuition discriminate.
Qed.

Lemma guard_precedes_capability_check_witness :
  let o := run (sample_env CYes false decoded removable no_race)
               "input.mp4" None (Some (-2)) false sample_fs_wav in
  exists rest,
    trace (final o) = EvConfirm (confirm_prompt "input.wav") :: rest /\
    (CYes = CYes -> exists rest', rest = EvImport :: rest') /\
    (CYes <> CYes ->
       (EvImport ∉ rest) /\ stderr_text o = ["Aborted!"] /\ exit_code o = 1).
Proof.
  apply (guard_precedes_capability_check
           (sample_env CYes false decoded removable no_race)
           "input.mp4" None (-2) sample_fs_wav).
  vm_compute. reflexivity.
Defined.

(** ** The missing capability *)

(** C2, as the code has it.  With a transposition requested and the
    dependencies missing, no file operation is performed: no transcode, no
    temporary file, no write, no removal, and the file system is the one
    the guard left.  The run ends with status 1; when the overwrite guard
    lets it go on, the import is the only step taken and the message is
    the missing-dependencies one. *)
Theorem missing_capability_no_file_io (env : Env) (filepath : string)
    (output : option string) (n : Z) (yes : bool) (fs0 : filesystem) :
  deps_importable env = false ->
  let out_path := resolve_out_path filepath output in
  let o := run env filepath output (Some n) yes fs0 in
  file_events (trace (final o)) = [] /\
  exit_code o = 1 /\
  fs (final o) = (if guard_passes env yes fs0 out_path then race env fs0 else fs0) /\
  (guard_passes env yes fs0 out_path = true ->
     stderr_text o = ["Error: " +:+ missing_deps_msg] /\
     trace (final o) = guard_events yes fs0 out_path ++ [EvImport]).
Proof.
  intros Hdeps out_path o. subst o out_path.
  remember (guard_passes env yes fs0 (resolve_out_path filepath output)) as g eqn:Hg.
  remember (guard_events yes fs0 (resolve_out_path filepath output)) as pre eqn:Hpre.
  start_run. wp_go.
  all: settle Hg; settle Hpre; subst g pre.
  all: repeat split; try done.
Qed.

Lemma missing_capability_no_file_io_witness :
  let o := run (sample_env CNo false decoded removable no_race)
               "input.mp4" None (Some (-2)) true sample_fs in
  file_events (trace (final o)) = [] /\
  exit_code o = 1 /\
  fs (final o) = sample_fs /\
  (true = true ->
     stderr_text o = ["Error: " +:+ missing_deps_msg] /\
     trace (final o) = [EvImport]).
Proof.
  apply (missing_capability_no_file_io
           (sample_env CNo false decoded removable no_race)
           "input.mp4" None (-2) true sample_fs).
  reflexivity.
Defined.

(** C2 as stated fails: the dependencies are missing and a transposition is
    requested, yet the run ends in the abort of the overwrite guard, not in
    the missing-dependencies error. *)
Lemma missing_capability_preempted_by_abort :
  let env := sample_env CNo false decoded removable no_race in
  let o := run env "input.mp4" None (Some 3) false sample_fs_wav in
  deps_importable env = false /\
  stderr_text o = ["Aborted!"] /\
  stderr_text o <> ["Error: " +:+ missing_deps_msg] /\
  EvImport ∉ trace (final o).
Proof.
  cbv zeta. split; [reflexivity |]. split; [by vm_compute |].
  split; [by vm_compute |].
  intros H%list_elem_of_In. vm_compute in H. intuition discriminate.
Qed.

(** ** The direct path *)

(** C4, as the code has it.  In the direct path the transcode is invoked
    once, on the resolved output path, with [-y] exactly when [--yes] was
    given or the user confirmed at the prompt; when nothing was at the
    output path at guard time and [--yes] is absent it is invoked without.
    The program adds no check of its own: invoked without [-y] on an
    output path where a file has appeared, the run ends as ffmpeg does, an
    error with the file left alone when ffmpeg refuses, the success line
    and status 0 with the file left alone when ffmpeg declines and exits
    normally, the file replaced when ffmpeg is told to go on. *)
Theorem direct_transcode_permission (env : Env) (filepath : string)
    (output : option string) (yes : bool) (fs0 : filesystem) :
  let out_path := resolve_out_path filepath output in
  guard_passes env yes fs0 out_path = true ->
  let o := run env filepath output None yes fs0 in
  let allowed := yes || confirmed env yes fs0 out_path in
  transcodes (trace (final o)) = [EvFfmpeg filepath out_path allowed] /\
  (exists_in fs0 out_path = false -> yes = false -> allowed = false) /\
  (forall pcm, allowed = false -> exists_in (race env fs0) out_path = true ->
     ffmpeg_outcome env = FfDone pcm ->
     match existing_without_y env with
     | Refuses =>
         exit_code o = 1 /\ fs (final o) = race env fs0 /\
         echoed (trace (final o)) = []
     | Declines =>
         exit_code o = 0 /\ fs (final o) = race env fs0 /\
         echoed (trace (final o)) = [wrote_msg out_path None]
     | Replaces =>
         exit_code o = 0 /\
         fs (final o) = <[out_path := WavStereo44k pcm]> (race env fs0) /\
         echoed (trace (final o)) = [wrote_msg out_path None]
     end).
Proof.
  intros out_path Hg o allowed. subst o out_path.
  remember allowed as a eqn:Ha. subst allowed.
  start_run. wp_go.
  all: settle Hg; try discriminate.
  all: settle Ha; subst a.
  all: split; [reflexivity |]; split; [congruence |].
  all: intros pcm' Hal Hex Hff; try discriminate Hal; try congruence.
  all: assert (pcm = pcm') as -> by congruence.
  all: by repeat split.
Qed.

Lemma direct_transcode_permission_witness :
  let env := with_existing Declines (sample_env CNo true decoded removable late_file) in
  let o := run env "input.mp4" None None false sample_fs in
  let allowed := false || confirmed env false sample_fs "input.wav" in
  transcodes (trace (final o)) = [EvFfmpeg "input.mp4" "input.wav" allowed] /\
  (exists_in sample_fs "input.wav" = false -> false = false -> allowed = false) /\
  (forall pcm, allowed = false -> exists_in (race env sample_fs) "input.wav" = true ->
     ffmpeg_outcome env = FfDone pcm ->
     exit_code o = 0 /\ fs (final o) = race env sample_fs /\
     echoed (trace (final o)) = [wrote_msg "input.wav" None]).
Proof.
  apply (direct_transcode_permission
           (with_existing Declines (sample_env CNo true decoded removable late_file))
           "input.mp4" None false sample_fs).
  by vm_compute.
Defined.

(** C4 as stated fails: nothing is at the output path at guard time, so no
    overwrite is needed, and the transcode is still invoked without the
    permission to replace a file; a file has appeared at the output path by
    then, ffmpeg leaves it and exits normally, and the run does not fail:
    it prints the success line and ends with status 0. *)
Lemma direct_transcode_unpermitted_and_not_failing :
  let env := with_existing Declines (sample_env CNo true decoded removable late_file) in
  let o := run env "input.mp4" None None false sample_fs in
  exists_in sample_fs (resolve_out_path "input.mp4" None) = false /\
  transcodes (trace (final o)) = [EvFfmpeg "input.mp4" "input.wav" false] /\
  exit_code o = 0 /\
  echoed (trace (final o)) = ["Wrote: input.wav"] /\
  fs (final o) !! "input.wav" = Some (Blob "someone else's").
Proof. by vm_compute. Qed.

(** ** Choice of the path *)



(** ** The success line *)

Lemma to_uint_nonnil (x : N) : N.to_uint x <> Decimal.Nil.
Proof.
  destruct x as [|p]; [discriminate |].
  apply DecimalPos.Unsigned.to_uint_nonnil.
Qed.

(** [format_plus_d] is a sign followed by digits that read back as the
    absolute value. *)
Lemma format_plus_d_spec (n : Z) :
  exists digits,
    format_plus_d n = String (if n <? 0 then "-"%char else "+"%char) digits /\
    NilZero.uint_of_string digits = Some (N.to_uint (Z.abs_N n)) /\
    Z.of_N (N.of_uint (N.to_uint (Z.abs_N n))) = Z.abs n.
Proof.
  exists (NilZero.string_of_uint (N.to_uint (Z.abs_N n))). split; [| split].
  - unfold format_plus_d. by destruct (n <? 0).
  - apply NilZero.usu, to_uint_nonnil.
  - rewrite DecimalN.Unsigned.of_to. apply N2Z.inj_abs_N.
Qed.

(** C8.  A run that ends with status 0 has printed one line and no other:
    [Wrote: <output-path>], followed by [ (transpose: <n> semitones)]
    exactly when a transposition was given, [<n>] being a sign, [+] for
    zero and above, and the decimal digits of the absolute value. *)
Theorem success_prints_wrote (env : Env) (filepath : string)
    (output : option string) (transpose : option Z) (yes : bool)
    (fs0 : filesystem) :
  let out_path := resolve_out_path filepath output in
  let o := run env filepath output transpose yes fs0 in
  exit_code o = 0 ->
  echoed (trace (final o)) = [wrote_msg out_path transpose] /\
  match transpose with
  | None => wrote_msg out_path transpose = "Wrote: " +:+ out_path
  | Some n =>
      exists digits,
        wrote_msg out_path transpose =
          "Wrote: " +:+ out_path +:+ " (transpose: " +:+
          String (if n <? 0 then "-"%char else "+"%char) digits +:+ " semitones)" /\
        NilZero.uint_of_string digits = Some (N.to_uint (Z.abs_N n)) /\
        Z.of_N (N.of_uint (N.to_uint (Z.abs_N n))) = Z.abs n
  end.
Proof.
  intros out_path o. subst o out_path. intros H. split.
  - revert H. start_run. wp_go.
    all: intros H; try discriminate H; reflexivity.
  - destruct transpose as [n|]; [| reflexivity].
    destruct (format_plus_d_spec n) as (digits & Hf & Hd & Ha).
    exists digits. unfold wrote_msg. rewrite Hf. by repeat split.
Qed.

Lemma success_prints_wrote_witness :
  let o := run (sample_env CNo true decoded removable no_race)
               "input.mp4" None (Some 3) false sample_fs in
  echoed (trace (final o)) = ["Wrote: input.wav (transpose: +3 semitones)"] /\
  exists digits,
    wrote_msg "input.wav" (Some 3) =
      "Wrote: " +:+ "input.wav" +:+ " (transpose: " +:+
      String "+"%char digits +:+ " semitones)" /\
    NilZero.uint_of_string digits = Some (N.to_uint (Z.abs_N 3)) /\
    Z.of_N (N.of_uint (N.to_uint (Z.abs_N 3))) = Z.abs 3.
Proof.
  apply (success_prints_wrote (sample_env CNo true decoded removable no_race)
           "input.mp4" None (Some 3) false sample_fs).
  vm_compute. reflexivity.
Defined.

(** ** The temporary file *)

Ltac split_ors H :=
  repeat match type of H with
         | _ \/ _ => destruct H as [H|H]
         end.

(** C3, as the code has it.  In every run that allocated a temporary file,
    whatever happens afterwards, its removal is attempted; the file is gone
    when the run ends provided the removal does not raise; a removal that
    raises is swallowed: the file is left, and the status and the message
    of the run are those of the same run with every removal succeeding. *)
Theorem temp_file_removed (env : Env) (filepath : string)
    (output : option string) (transpose : option Z) (yes : bool)
    (fs0 : filesystem) (t : string) :
  let o := run env filepath output transpose yes fs0 in
  let o' := run (with_removals removable env) filepath output transpose yes fs0 in
  EvMkTemp t ∈ trace (final o) ->
  EvRemove t ∈ trace (final o) /\
  (remove_outcome env t = None -> fs (final o) !! t = None) /\
  (forall text, remove_outcome env t = Some text -> is_Some (fs (final o) !! t)) /\
  exit_code o = exit_code o' /\
  stderr_text o = stderr_text o'.
Proof.
  intros o o'. subst o o'.
  assert (Hsame :
    exit_code (run env filepath output transpose yes fs0)
      = exit_code (run (with_removals removable env) filepath output transpose yes fs0) /\
    stderr_text (run env filepath output transpose yes fs0)
      = stderr_text (run (with_removals removable env) filepath output transpose yes fs0)).
  { pose proof (run_report env filepath output transpose yes fs0) as H1.
    pose proof (run_report (with_removals removable env) filepath output transpose yes fs0) as H2.
    rewrite with_removals_report in H2. cbv zeta in H1, H2.
    destruct (expected_report env filepath output transpose yes fs0);
      destruct H1 as [-> ->], H2 as [-> ->]; by split. }
  intros H.
  enough (Hfiles :
    EvRemove t ∈ trace (final (run env filepath output transpose yes fs0)) /\
    (remove_outcome env t = None ->
       fs (final (run env filepath output transpose yes fs0)) !! t = None) /\
    (forall text, remove_outcome env t = Some text ->
       is_Some (fs (final (run env filepath output transpose yes fs0)) !! t))).
  { destruct Hfiles as (? & ? & ?), Hsame. by repeat split. }
  clear Hsame. revert H. unfold run. apply wp_run. unfold main. cbv zeta.
  remember (resolve_out_path filepath output) as out eqn:Hout. clear Hout.
  wp_go.
  all: intros H%list_elem_of_In; cbn [In] in H; split_ors H.
  all: try discriminate H; try contradiction.
  all: injection H as <-.
  all: destruct (decide (out = s +:+ ".wav")) as [-> | Hne];
       [| pose proof (not_eq_sym Hne) as Hne'].
  all: normalize_exists; try discriminate; try congruence.
  all: split; [rewrite list_elem_of_In; cbn [In]; tauto |].
  all: split; [intros Hrm; try congruence;
               first [ apply lookup_delete_eq | by apply exists_in_None ]
              | intros tx Hrm; try congruence ].
  all: apply exists_in_Some; first [ assumption | apply exists_in_insert_eq
       | rewrite ?exists_in_insert_ne, ?exists_in_delete_ne by assumption;
         apply exists_in_insert_eq ].
Qed.

Lemma temp_file_removed_witness :
  let rm := fun p : string =>
    if String.eqb p "/tmp/tmpk3v9x0qa.wav" then Some "PermissionError" else None in
  let env := sample_env CNo true decoded rm no_race in
  let o := run env "input.mp4" None (Some 3) false sample_fs in
  let o' := run (with_removals removable env) "input.mp4" None (Some 3) false sample_fs in
  EvRemove "/tmp/tmpk3v9x0qa.wav" ∈ trace (final o) /\
  (remove_outcome env "/tmp/tmpk3v9x0qa.wav" = None ->
     fs (final o) !! "/tmp/tmpk3v9x0qa.wav" = None) /\
  (forall text, remove_outcome env "/tmp/tmpk3v9x0qa.wav" = Some text ->
     is_Some (fs (final o) !! "/tmp/tmpk3v9x0qa.wav")) /\
  exit_code o = exit_code o' /\
  stderr_text o = stderr_text o'.
Proof.
  apply (temp_file_removed
           (sample_env CNo true decoded
              (fun p : string =>
                 if String.eqb p "/tmp/tmpk3v9x0qa.wav"
                 then Some "PermissionError" else None)
              no_race)
           "input.mp4" None (Some 3) false sample_fs "/tmp/tmpk3v9x0qa.wav").
  apply list_elem_of_In. vm_compute. tauto.
Defined.

(** C3 as stated fails: the removal of the temporary file raises, the
    exception is swallowed, the run succeeds and the file is still there. *)
Lemma temp_file_left_when_removal_raises :
  let rm := fun p : string =>
    if String.eqb p "/tmp/tmpk3v9x0qa.wav" then Some "PermissionError" else None in
  let o := run (sample_env CNo true decoded rm no_race)
               "input.mp4" None (Some 3) false sample_fs in
  EvMkTemp "/tmp/tmpk3v9x0qa.wav" ∈ trace (final o) /\
  exit_code o = 0 /\
  fs (final o) !! "/tmp/tmpk3v9x0qa.wav" = Some (WavStereo44k [1; 2; 3; 4]).
Proof.
  cbv zeta. split; [| split].
  - apply list_elem_of_In. vm_compute. tauto.
  - by vm_compute.
  - by vm_compute.
Qed.

(** ** Transcode failures *)

Lemma decode_ignore_ascii (b : string) :
  ascii_only b = true -> Utf8.decode_ignore b = b.
Proof.
  induction b as [|c r IH]; [done |].
  cbn [ascii_only]. intros [Hc Hr]%andb_prop.
  cbn [Utf8.decode_ignore]. cbv zeta. rewrite Hc. by rewrite IH.
Qed.

(** C7, as the code has it.  When the transcode step runs and ends in an
    ffmpeg error, it ran once, the run ends with status 1, and the one
    message on the error stream is [Error: ffmpeg error: ] followed by the
    captured diagnostic, decoded with undecodable bytes dropped (unchanged
    when it is ASCII).  The message has a line break whenever the
    diagnostic has one. *)
Theorem ffmpeg_error_surfaced (env : Env) (filepath : string)
    (output : option string) (transpose : option Z) (yes : bool)
    (fs0 : filesystem) (stderr : option string) :
  ffmpeg_outcome env = FfError stderr ->
  let o := run env filepath output transpose yes fs0 in
  transcodes (trace (final o)) <> [] ->
  stderr_text o = ["Error: ffmpeg error: " +:+ stderr_str stderr] /\
  exit_code o = 1 /\
  length (transcodes (trace (final o))) = 1%nat /\
  echoed (trace (final o)) = [] /\
  (forall b, stderr = Some b -> ascii_only b = true -> stderr_str stderr = b) /\
  single_line ("Error: ffmpeg error: " +:+ stderr_str stderr)
    = single_line (stderr_str stderr).
Proof.
  intros Hff o. subst o. intros H.
  assert (Hrun :
    stderr_text (run env filepath output transpose yes fs0)
      = ["Error: ffmpeg error: " +:+ stderr_str stderr] /\
    exit_code (run env filepath output transpose yes fs0) = 1 /\
    length (transcodes (trace (final (run env filepath output transpose yes fs0)))) = 1%nat /\
    echoed (trace (final (run env filepath output transpose yes fs0))) = []).
  { revert H. start_run. wp_go.
    all: cbn [transcodes List.filter length]; intros H; try congruence.
    all: repeat match goal with
                | E : ffmpeg_outcome _ = FfError ?s |- _ =>
                    tryif constr_eq s stderr then fail
                    else assert (s = stderr) as -> by congruence
                end.
    all: by repeat split. }
  destruct Hrun as (H1 & H2 & H3 & H4).
  split; [exact H1 |]. split; [exact H2 |]. split; [exact H3 |].
  split; [exact H4 |]. split.
  - intros b -> Hb. by apply decode_ignore_ascii.
  - unfold single_line.
    change ("Error: ffmpeg error: " +:+ stderr_str stderr)
      with (("Error: ffmpeg error: " +:+ "") +:+ stderr_str stderr).
    by rewrite contains_app.
Qed.

Lemma ffmpeg_error_surfaced_witness :
  let stderr := Some "input.mp4: Invalid data found when processing input" in
  let o := run (sample_env CNo true (FfError stderr) removable no_race)
               "input.mp4" None None false sample_fs in
  stderr_text o = ["Error: ffmpeg error: " +:+ stderr_str stderr] /\
  exit_code o = 1 /\
  length (transcodes (trace (final o))) = 1%nat /\
  echoed (trace (final o)) = [] /\
  (forall b, stderr = Some b -> ascii_only b = true -> stderr_str stderr = b) /\
  single_line ("Error: ffmpeg error: " +:+ stderr_str stderr)
    = single_line (stderr_str stderr).
Proof.
  apply (ffmpeg_error_surfaced
           (sample_env CNo true
              (FfError (Some "input.mp4: Invalid data found when processing input"))
              removable no_race)
           "input.mp4" None None false sample_fs).
  - reflexivity.
  - vm_compute. discriminate.
Defined.

(** C7 as stated fails: the transcode fails with a diagnostic of two lines
    and the message shown to the user is not a single line. *)
Lemma ffmpeg_error_message_spans_lines :
  let o := run (sample_env CNo true (FfError (Some two_line_diagnostic))
                  removable no_race)
               "input.mp4" None None false sample_fs in
  exists msg,
    stderr_text o = [msg] /\
    msg = "Error: ffmpeg error: " +:+ two_line_diagnostic /\
    single_line msg = false /\
    exit_code o = 1.
Proof. eexists. by vm_compute. Qed.

(** ** The final write of the transpose path *)

(** C9.  In the transpose path, when every step up to the write succeeds,
    the shifted samples end up at the output path whatever was there when
    the write came, and whether or not an overwrite was confirmed: the only
    prompts of the run are those of the guard, and the write is invoked. *)
Theorem transpose_write_unguarded (env : Env) (filepath : string)
    (output : option string) (n : Z) (yes : bool) (fs0 : filesystem)
    (stem : string) (pcm y y' : samples) (sr : Z) :
  let out_path := resolve_out_path filepath output in
  guard_passes env yes fs0 out_path = true ->
  deps_importable env = true ->
  tmp_name env = inr stem ->
  exists_in (race env fs0) (stem +:+ ".wav") = false ->
  stem +:+ ".wav" <> out_path ->
  ffmpeg_outcome env = FfDone pcm ->
  load_outcome env = inr (y, sr) ->
  shift_outcome env y n sr = inr y' ->
  write_outcome env = None ->
  let o := run env filepath output (Some n) yes fs0 in
  fs (final o) !! out_path = Some (WavPcm16 y' sr) /\
  exit_code o = 0 /\
  EvSfWrite out_path sr ∈ trace (final o) /\
  prompts (trace (final o)) = guard_events yes fs0 out_path.
Proof.
  intros out_path Hg Hdeps Htmp Hfresh Hne Hff Hload Hshift Hwrite o.
  subst o out_path.
  remember (guard_events yes fs0 (resolve_out_path filepath output)) as pre eqn:Hpre.
  start_run. wp_go.
  all: settle Hg; try discriminate.
  all: settle Hpre; subst pre.
  all: assert (s = stem) as -> by congruence.
  all: match goal with
       | E : load_outcome _ = inr (?a, ?b) |- _ =>
           assert (a = y /\ b = sr) as [-> ->]
             by (split; congruence)
       end.
  all: match goal with
       | E : shift_outcome _ _ _ _ = inr ?a |- _ =>
           assert (a = y') as -> by congruence
       end.
  all: repeat split; try reflexivity.
  all: try (rewrite ?lookup_delete_ne by exact Hne; apply lookup_insert_eq).
  all: rewrite list_elem_of_In; cbn [In]; tauto.
Qed.

Lemma transpose_write_unguarded_witness :
  let env := sample_env CNo true decoded removable late_file in
  let o := run env "input.mp4" None (Some 0) false sample_fs in
  fs (final o) !! "input.wav" = Some (WavPcm16 [10; -20; 30] 44100) /\
  exit_code o = 0 /\
  EvSfWrite "input.wav" 44100 ∈ trace (final o) /\
  prompts (trace (final o)) = [].
Proof.
  apply (transpose_write_unguarded
           (sample_env CNo true decoded removable late_file)
           "input.mp4" None 0 false sample_fs
           "/tmp/tmpk3v9x0qa" [1; 2; 3; 4] [10; -20; 30] [10; -20; 30] 44100).
  all: by vm_compute.
Defined.

(** * Further properties of [main] and [_default_output_path] *)

(** ** Prompts, messages and exit status *)

(** X1.  In every run the user is prompted at most once, and exactly when
    the output path exists and [--yes] is absent: nothing after the guard
    asks anything. *)
Theorem prompted_exactly_when_needed (env : Env) (filepath : string)
    (output : option string) (transpose : option Z) (yes : bool)
    (fs0 : filesystem) :
  let out_path := resolve_out_path filepath output in
  let o := run env filepath output transpose yes fs0 in
  prompts (trace (final o)) =
    if exists_in fs0 out_path && negb yes
    then [EvConfirm (confirm_prompt out_path)] else [].
Proof.
  intros out_path o. subst o out_path.
  remember (exists_in fs0 (resolve_out_path filepath output) && negb yes) as g eqn:Hg.
  start_run. wp_go.
  all: settle Hg; subst g; reflexivity.
Qed.

(** X2.  No run ends in a traceback: either the status is 0 and nothing is
    written to the error stream, or the status is 1 and the error stream
    holds one message, [Aborted!] or one that starts with [Error: ]. *)
Theorem failures_are_reported (env : Env) (filepath : string)
    (output : option string) (transpose : option Z) (yes : bool)
    (fs0 : filesystem) :
  let o := run env filepath output transpose yes fs0 in
  (exit_code o = 0 /\ stderr_text o = []) \/
  (exit_code o = 1 /\
   exists m, stderr_text o = [m] /\
     (m = "Aborted!" \/ String.prefix "Error: " m = true)).
Proof.
  intros o. subst o. start_run. wp_go.
  all: first [ left; split; reflexivity
             | right; split; [reflexivity |]; eexists; split; [reflexivity |];
               first [ left; reflexivity | right; reflexivity ] ].
Qed.

Lemma error_not_aborted (m : string) : ["Error: " +:+ m] <> ["Aborted!"].
Proof. discriminate. Qed.

(** X3.  A run ends with [Aborted!] exactly when the output path exists,
    [--yes] is absent and the prompt is not answered with yes; with
    [--yes], or with nothing at the output path, it never does. *)
Theorem aborted_exactly_when_declined (env : Env) (filepath : string)
    (output : option string) (transpose : option Z) (yes : bool)
    (fs0 : filesystem) :
  let out_path := resolve_out_path filepath output in
  let o := run env filepath output transpose yes fs0 in
  stderr_text o = ["Aborted!"] <->
  exists_in fs0 out_path = true /\ yes = false /\ confirm_answer env <> CYes.
Proof.
  intros out_path o. subst o out_path.
  assert (Hg : guard_passes env yes fs0 (resolve_out_path filepath output) = false <->
               exists_in fs0 (resolve_out_path filepath output) = true /\ yes = false /\
               confirm_answer env <> CYes).
  { unfold guard_passes.
    destruct (exists_in fs0 _), yes, (confirm_answer env); simpl; split;
      try discriminate; try (intros (? & ? & ?); congruence); by repeat split. }
  rewrite <- Hg. clear Hg.
  remember (guard_passes env yes fs0 (resolve_out_path filepath output)) as g eqn:Hg.
  start_run. wp_go.
  all: settle Hg; subst g.
  all: split; intros H; try discriminate H; try reflexivity.
  all: exfalso; exact (error_not_aborted _ H).
Qed.

(** X4.  A run that ends with status 1 writes to standard output nothing
    but the question of the guard, when it is asked, and after a declined
    question the line [Aborted: ...]; it never prints a success line. *)
Theorem failing_run_prints_no_success_line (env : Env) (filepath : string)
    (output : option string) (transpose : option Z) (yes : bool)
    (fs0 : filesystem) :
  let out_path := resolve_out_path filepath output in
  let o := run env filepath output transpose yes fs0 in
  exit_code o = 1 ->
  stdout_events (trace (final o)) = guard_events yes fs0 out_path \/
  (stdout_events (trace (final o)) =
     guard_events yes fs0 out_path ++ [EvEcho aborted_msg] /\
   stderr_text o = ["Aborted!"] /\ confirm_answer env = CNo).
Proof.
  intros out_path o. subst o out_path.
  remember (guard_events yes fs0 (resolve_out_path filepath output)) as pre eqn:Hpre.
  start_run. wp_go.
  all: intros H; try discriminate H.
  all: settle Hpre; subst pre.
  all: first [ left; reflexivity
             | right; repeat split; first [reflexivity | assumption] ].
Qed.

Lemma failing_run_prints_no_success_line_witness :
  let env := sample_env CYes false decoded removable no_race in
  let o := run env "input.mp4" None (Some 3) false sample_fs_wav in
  stdout_events (trace (final o)) = guard_events false sample_fs_wav "input.wav" \/
  (stdout_events (trace (final o)) =
     guard_events false sample_fs_wav "input.wav" ++ [EvEcho aborted_msg] /\
   stderr_text o = ["Aborted!"] /\ confirm_answer env = CNo).
Proof.
  apply (failing_run_prints_no_success_line
           (sample_env CYes false decoded removable no_race)
           "input.mp4" None (Some 3) false sample_fs_wav).
  reflexivity.
Defined.

(** X5.  An ffmpeg invocation that ends in an exception other than
    [ffmpeg.Error] (the binary is missing, say) is reported as
    [Failed processing file: <text>], with status 1 and no success line. *)
Theorem crash_is_wrapped (env : Env) (filepath : string)
    (output : option string) (transpose : option Z) (yes : bool)
    (fs0 : filesystem) (text : string) :
  ffmpeg_outcome env = FfCrash text ->
  let o := run env filepath output transpose yes fs0 in
  transcodes (trace (final o)) <> [] ->
  stderr_text o = ["Error: Failed processing file: " +:+ text] /\
  exit_code o = 1 /\
  echoed (trace (final o)) = [].
Proof.
  intros Hff o. subst o. start_run. wp_go.
  all: cbn [transcodes List.filter]; intros H; try congruence.
  all: repeat match goal with
              | E : ffmpeg_outcome _ = FfCrash ?s |- _ =>
                  tryif constr_eq s text then fail
                  else assert (s = text) as -> by congruence
              end.
  all: by repeat split.
Qed.

Lemma crash_is_wrapped_witness :
  let text := "[Errno 2] No such file or directory: 'ffmpeg'" in
  let o := run (sample_env CNo true (FfCrash text) removable no_race)
               "input.mp4" None (Some 1) false sample_fs in
  stderr_text o = ["Error: Failed processing file: " +:+ text] /\
  exit_code o = 1 /\
  echoed (trace (final o)) = [].
Proof.
  apply (crash_is_wrapped
           (sample_env CNo true
              (FfCrash "[Errno 2] No such file or directory: 'ffmpeg'")
              removable no_race)
           "input.mp4" None (Some 1) false sample_fs).
  - reflexivity.
  - vm_compute. discriminate.
Defined.

(** ** What happens to the files *)

(** X6.  The only paths a run creates, writes or removes are the output
    path and the name of the temporary file: every file operation it
    performs is aimed at one of the two. *)
Theorem only_output_and_temp_targeted (env : Env) (filepath : string)
    (output : option string) (transpose : option Z) (yes : bool)
    (fs0 : filesystem) (e : event) (p : string) :
  let out_path := resolve_out_path filepath output in
  let o := run env filepath output transpose yes fs0 in
  e ∈ trace (final o) ->
  target e = Some p ->
  p = out_path \/ is_tmp env p = true.
Proof.
  intros out_path o. subst o out_path.
  remember (is_tmp env p) as tp eqn:Htp.
  start_run. wp_go.
  all: intros H%list_elem_of_In Ht; cbn [In] in H; split_ors H.
  all: try contradiction; subst e; cbn [target] in Ht; try discriminate Ht.
  all: injection Ht as <-.
  all: first [ left; reflexivity | right ].
  all: unfold is_tmp in Htp; evaluate Htp; subst tp; apply String.eqb_refl.
Qed.

Lemma only_output_and_temp_targeted_witness :
  let env := sample_env CNo true decoded removable no_race in
  "/tmp/tmpk3v9x0qa.wav" = resolve_out_path "input.mp4" None \/
  is_tmp env "/tmp/tmpk3v9x0qa.wav" = true.
Proof.
  apply (only_output_and_temp_targeted
           (sample_env CNo true decoded removable no_race)
           "input.mp4" None (Some 3) false sample_fs
           (EvRemove "/tmp/tmpk3v9x0qa.wav") "/tmp/tmpk3v9x0qa.wav").
  - apply list_elem_of_In. vm_compute. tauto.
  - reflexivity.
Defined.

(** X7.  A run that ends with status 0 leaves a file at the output path
    (the temporary name being another path): the shifted samples at the
    loaded sample rate in the transpose path; in the direct path the
    transcoded audio, provided the transcode was invoked with [-y], or
    found nothing at the output path, or ffmpeg went on to replace what it
    found. *)
Theorem success_leaves_the_output (env : Env) (filepath : string)
    (output : option string) (transpose : option Z) (yes : bool)
    (fs0 : filesystem) :
  let out_path := resolve_out_path filepath output in
  let o := run env filepath output transpose yes fs0 in
  exit_code o = 0 ->
  is_tmp env out_path = false ->
  match transpose with
  | None =>
      yes || confirmed env yes fs0 out_path = true \/
      exists_in (race env fs0) out_path = false \/
      existing_without_y env = Replaces ->
      exists pcm, ffmpeg_outcome env = FfDone pcm /\
        fs (final o) !! out_path = Some (WavStereo44k pcm)
  | Some n =>
      exists y sr y', load_outcome env = inr (y, sr) /\
        shift_outcome env y n sr = inr y' /\
        fs (final o) !! out_path = Some (WavPcm16 y' sr)
  end.
Proof.
  intros out_path o. subst o out_path.
  remember (yes || confirmed env yes fs0 (resolve_out_path filepath output)) as a eqn:Ha.
  start_run. wp_go.
  all: intros H Htmp; try discriminate H.
  all: settle Ha; subst a.
  all: try tmp_distinct Htmp.
  all: try (intros [Hc | [Hc | Hc]]; try discriminate Hc).
  all: repeat eexists; try eassumption; try reflexivity.
  all: rewrite ?lookup_delete_ne by congruence; apply lookup_insert_eq.
Qed.

Lemma success_leaves_the_output_witness :
  let env := sample_env CNo true decoded removable no_race in
  let o := run env "input.mp4" None None false sample_fs in
  exists pcm, ffmpeg_outcome env = FfDone pcm /\
    fs (final o) !! "input.wav" = Some (WavStereo44k pcm).
Proof.
  apply (success_leaves_the_output
           (sample_env CNo true decoded removable no_race)
           "input.mp4" None None false sample_fs);
    [reflexivity | reflexivity | right; left; reflexivity].
Defined.


(** X8.  In the transpose path the output path is not touched before
    decode, load and shift have all succeeded: when one of them fails the
    run ends with status 1 and the output path holds what it held when the
    guard was done. *)
Theorem output_untouched_until_shifted (env : Env) (filepath : string)
    (output : option string) (n : Z) (yes : bool) (fs0 : filesystem) :
  let out_path := resolve_out_path filepath output in
  let o := run env filepath output (Some n) yes fs0 in
  shift_ready env n = false ->
  is_tmp env out_path = false ->
  exit_code o = 1 /\
  fs (final o) !! out_path =
    (if guard_passes env yes fs0 out_path then race env fs0 else fs0) !! out_path.
Proof.
  intros out_path o Hsr Htmp. subst o out_path.
  remember (guard_passes env yes fs0 (resolve_out_path filepath output)) as g eqn:Hg.
  start_run. wp_go.
  all: settle Hg; subst g.
  all: unfold shift_ready in Hsr; use_eqs_in Hsr; try discriminate Hsr.
  all: split; [reflexivity |]; try reflexivity.
  all: tmp_distinct Htmp; pose proof (not_eq_sym Htmp) as Htmp'.
  all: repeat first [ rewrite lookup_delete_ne by assumption
                    | rewrite lookup_insert_ne by assumption ]; reflexivity.
Qed.

Lemma output_untouched_until_shifted_witness :
  let env := sample_env CYes true (FfError (Some "input.mp4: Invalid data"))
               removable no_race in
  let o := run env "input.mp4" (Some "out.wav") (Some 3) false sample_fs_out in
  exit_code o = 1 /\
  fs (final o) !! "out.wav" =
    (if guard_passes env false sample_fs_out "out.wav"
     then race env sample_fs_out else sample_fs_out) !! "out.wav".
Proof.
  apply (output_untouched_until_shifted
           (sample_env CYes true (FfError (Some "input.mp4: Invalid data"))
              removable no_race)
           "input.mp4" (Some "out.wav") 3 false sample_fs_out); reflexivity.
Defined.

(** X9.  The steps of a transpose run in which every call succeeds, in
    order: the guard, the import, the temporary file, the transcode onto
    it with [-y], the load, the shift, the removal of the old output when
    an overwrite is in force and a file is there, the write, the removal of
    the temporary file, the success line. *)
Theorem transpose_pipeline_order (env : Env) (filepath : string)
    (output : option string) (n : Z) (yes : bool) (fs0 : filesystem)
    (stem : string) (pcm y y' : samples) (sr : Z) :
  let out_path := resolve_out_path filepath output in
  let tmp := stem +:+ ".wav" in
  guard_passes env yes fs0 out_path = true ->
  deps_importable env = true ->
  tmp_name env = inr stem ->
  exists_in (race env fs0) tmp = false ->
  tmp <> out_path ->
  ffmpeg_outcome env = FfDone pcm ->
  load_outcome env = inr (y, sr) ->
  shift_outcome env y n sr = inr y' ->
  write_outcome env = None ->
  let o := run env filepath output (Some n) yes fs0 in
  trace (final o) =
    guard_events yes fs0 out_path ++
    [EvImport; EvMkTemp tmp; EvFfmpeg filepath tmp true; EvLoad tmp;
     EvPitchShift n sr] ++
    (if (yes || confirmed env yes fs0 out_path) && exists_in (race env fs0) out_path
     then [EvRemove out_path] else []) ++
    [EvSfWrite out_path sr; EvRemove tmp; EvEcho (wrote_msg out_path (Some n))].
Proof.
  intros out_path tmp Hg Hdeps Htmp Hfresh Hne Hff Hload Hshift Hwrite o.
  subst o out_path tmp.
  remember (guard_events yes fs0 (resolve_out_path filepath output)) as pre eqn:Hpre.
  remember (yes || confirmed env yes fs0 (resolve_out_path filepath output)) as ov eqn:Hov.
  remember (exists_in (race env fs0) (resolve_out_path filepath output)) as ex eqn:Hex.
  start_run. wp_go.
  all: settle Hg; try discriminate.
  all: settle Hpre; settle Hov; subst pre ov.
  all: assert (s = stem) as -> by congruence.
  all: match goal with
       | E : load_outcome _ = inr (?a, ?b) |- _ =>
           assert (a = y /\ b = sr) as [-> ->] by (split; congruence)
       end.
  all: pose proof (not_eq_sym Hne) as Hne'.
  all: normalize_exists; try discriminate.
  all: try congruence.
  all: use_eqs_in Hex; subst ex; reflexivity.
Qed.

Lemma transpose_pipeline_order_witness :
  let env := sample_env CYes true decoded removable no_race in
  let o := run env "input.mp4" (Some "out.wav") (Some (-2)) false sample_fs_out in
  trace (final o) =
    guard_events false sample_fs_out "out.wav" ++
    [EvImport; EvMkTemp "/tmp/tmpk3v9x0qa.wav";
     EvFfmpeg "input.mp4" "/tmp/tmpk3v9x0qa.wav" true;
     EvLoad "/tmp/tmpk3v9x0qa.wav"; EvPitchShift (-2) 44100] ++
    (if (false || confirmed env false sample_fs_out "out.wav")
        && exists_in (race env sample_fs_out) "out.wav"
     then [EvRemove "out.wav"] else []) ++
    [EvSfWrite "out.wav" 44100; EvRemove "/tmp/tmpk3v9x0qa.wav";
     EvEcho (wrote_msg "out.wav" (Some (-2)))].
Proof.
  apply (transpose_pipeline_order
           (sample_env CYes true decoded removable no_race)
           "input.mp4" (Some "out.wav") (-2) false sample_fs_out
           "/tmp/tmpk3v9x0qa" [1; 2; 3; 4] [10; -20; 30] [8; -22; 28] 44100).
  all: by vm_compute.
Defined.

(** X10.  Removal and write are two steps: with an overwrite in force and
    a file at the output path, a write that fails after the removal
    succeeded leaves no file at the output path (a failed write creating
    none), and the run reports the failure with status 1. *)
Theorem failed_write_loses_old_output (env : Env) (filepath : string)
    (output : option string) (n : Z) (yes : bool) (fs0 : filesystem)
    (stem : string) (pcm y y' : samples) (sr : Z) (text : string) :
  let out_path := resolve_out_path filepath output in
  let tmp := stem +:+ ".wav" in
  guard_passes env yes fs0 out_path = true ->
  yes || confirmed env yes fs0 out_path = true ->
  exists_in (race env fs0) out_path = true ->
  deps_importable env = true ->
  tmp_name env = inr stem ->
  exists_in (race env fs0) tmp = false ->
  ffmpeg_outcome env = FfDone pcm ->
  load_outcome env = inr (y, sr) ->
  shift_outcome env y n sr = inr y' ->
  remove_outcome env out_path = None ->
  write_outcome env = Some text ->
  let o := run env filepath output (Some n) yes fs0 in
  fs (final o) !! out_path = None /\
  stderr_text o = ["Error: Failed processing file: " +:+ text] /\
  exit_code o = 1.
Proof.
  intros out_path tmp Hg Hov Hex Hdeps Htmp Hfresh Hff Hload Hshift Hrm Hwrite o.
  subst o out_path tmp.
  assert (Hne : stem +:+ ".wav" <> resolve_out_path filepath output).
  { intros E. rewrite E in Hfresh. congruence. }
  pose proof (not_eq_sym Hne) as Hne'.
  start_run. wp_go.
  all: settle Hg; try discriminate.
  all: settle Hov; try discriminate.
  all: assert (s = stem) as -> by congruence.
  all: normalize_exists; try congruence.
  all: match goal with
       | E : write_outcome _ = Some ?t |- _ =>
           tryif constr_eq t text then idtac
           else assert (t = text) as -> by congruence
       end.
  all: split; [| by split].
  all: rewrite ?lookup_delete_ne by assumption; try apply lookup_delete_eq.
  all: by apply exists_in_None.
Qed.

Lemma failed_write_loses_old_output_witness :
  let o := run write_fails_env "input.mp4" (Some "out.wav") (Some 3) true
               sample_fs_out in
  fs (final o) !! "out.wav" = None /\
  stderr_text o =
    ["Error: Failed processing file: " +:+ "Error opening 'out.wav': System error."] /\
  exit_code o = 1.
Proof.
  apply (failed_write_loses_old_output write_fails_env
           "input.mp4" (Some "out.wav") 3 true sample_fs_out
           "/tmp/tmpk3v9x0qa" [1; 2; 3; 4] [10; -20; 30] [13; -17; 33] 44100
           "Error opening 'out.wav': System error.").
  all: by vm_compute.
Defined.

(** ** Names and texts *)

Section DotLemmas.
Import PyStr PosixPath.

Lemma only_dots_no_sep (d : string) :
  has_other extsep d = false -> contains sep d = false.
Proof.
  induction d as [|a r IH]; [done |]. simpl.
  intros [Ha Hr]%orb_false_elim. apply negb_false_iff, Ascii.eqb_eq in Ha.
  subst a. by rewrite (IH Hr).
Qed.

Lemma rfind_after_dots (d rest : string) :
  has_other extsep d = false -> contains extsep rest = false ->
  rfind extsep (d +:+ rest) = len d - 1.
Proof.
  intros Hd Hr. induction d as [|a r IH].
  - rewrite append_nil. by rewrite (rfind_absent _ _ Hr).
  - simpl in Hd. apply orb_false_elim in Hd as [Ha Hd].
    apply negb_false_iff in Ha.
    rewrite append_cons. simpl. rewrite (IH Hd), Ha. unfold len.
    change (String.length (String a r)) with (S (String.length r)).
    destruct (0 <=? Z.of_nat (String.length r) - 1) eqn:E.
    + lia.
    + apply Z.leb_gt in E. lia.
Qed.

Lemma skip_leading_dots_none (n : nat) (pre d rest : string) :
  has_other extsep d = false -> (n <= String.length d)%nat ->
  skip_leading_dots (pre +:+ d +:+ rest) (String.length pre) n = false.
Proof.
  revert pre d. induction n as [|n IH]; intros pre d Hd Hn; [done |].
  destruct d as [|a r]; [simpl in Hn; lia |].
  simpl in Hd. apply orb_false_elim in Hd as [Ha Hd].
  apply negb_false_iff in Ha.
  rewrite append_cons. cbn [skip_leading_dots].
  unfold slice1. rewrite slice_from_app.
  change (slice_to 1 (String a (r +:+ rest))) with (String a EmptyString).
  change (String.eqb (String a EmptyString) (String extsep EmptyString))
    with (Ascii.eqb a extsep && true).
  rewrite Ha. simpl negb. cbv iota.
  rewrite (app_assoc_one pre a (r +:+ rest)).
  rewrite <- (length_app_one pre a). apply IH; [exact Hd |].
  simpl in Hn. lia.
Qed.

Lemma splitext_leading_dots (d rest : string) :
  has_other extsep d = false -> contains extsep rest = false ->
  contains sep rest = false ->
  splitext (d +:+ rest) = (d +:+ rest, EmptyString).
Proof.
  intros Hd Hr Hs. unfold splitext.
  rewrite (rfind_after_dots _ _ Hd Hr).
  assert (Hsep : rfind sep (d +:+ rest) = -1).
  { apply rfind_absent. by rewrite contains_app, (only_dots_no_sep _ Hd), Hs. }
  rewrite Hsep. unfold len.
  destruct (-1 <? Z.of_nat (String.length d) - 1); [| done].
  replace (Z.to_nat (-1 + 1)) with (String.length EmptyString) by reflexivity.
  change (d +:+ rest) with (EmptyString +:+ d +:+ rest) at 1.
  rewrite skip_leading_dots_none; [done | exact Hd | lia].
Qed.

End DotLemmas.

(** X11.  A name made of leading dots and a rest without a dot has no
    extension to strip: [.wav] is appended to the whole name, so [.bashrc]
    gives [.bashrc.wav]. *)
Theorem default_output_path_keeps_dotfile_name (dir d rest : string) :
  PyStr.has_other "." d = false ->
  PyStr.contains "." rest = false ->
  PyStr.contains "/" rest = false ->
  _default_output_path (dir +:+ "/" +:+ d +:+ rest) = d +:+ rest +:+ ".wav" /\
  _default_output_path (d +:+ rest) = d +:+ rest +:+ ".wav".
Proof.
  intros Hd Hr Hs.
  assert (Hname : PyStr.contains "/" (d +:+ rest) = false).
  { pose proof (only_dots_no_sep _ Hd) as Hdd. unfold PosixPath.sep in Hdd.
    by rewrite contains_app, Hdd, Hs. }
  assert (Happ : forall a b c : string, (a +:+ b) +:+ c = a +:+ b +:+ c).
  { intros a b c. induction a as [|x a IH]; [done |].
    rewrite !append_cons. by f_equal. }
  split; unfold _default_output_path.
  - change (dir +:+ "/" +:+ d +:+ rest) with (dir +:+ String "/"%char (d +:+ rest)).
    rewrite (basename_dir _ _ Hname). rewrite splitext_leading_dots by assumption.
    apply Happ.
  - rewrite (basename_plain _ Hname). rewrite splitext_leading_dots by assumption.
    apply Happ.
Qed.

Lemma default_output_path_keeps_dotfile_name_witness :
  _default_output_path ("/home/u" +:+ "/" +:+ "." +:+ "bashrc") = "." +:+ "bashrc" +:+ ".wav" /\
  _default_output_path ("." +:+ "bashrc") = "." +:+ "bashrc" +:+ ".wav".
Proof.
  apply (default_output_path_keeps_dotfile_name "/home/u" "." "bashrc"); reflexivity.
Defined.

(** X12.  A [.wav] input named without a directory resolves, with no
    [--output], to itself: without [--yes] the guard prompts about the
    input file, and with [--yes] the direct path transcodes the file onto
    itself with [-y]. *)
Theorem wav_input_is_its_own_output (env : Env) (stem : string)
    (transpose : option Z) (fs0 : filesystem) :
  PyStr.contains "/" stem = false ->
  PyStr.has_other "." stem = true ->
  let filepath := stem +:+ ".wav" in
  resolve_out_path filepath None = filepath /\
  (exists_in fs0 filepath = true ->
   prompts (trace (final (run env filepath None transpose false fs0)))
     = [EvConfirm (confirm_prompt filepath)]) /\
  transcodes (trace (final (run env filepath None None true fs0)))
    = [EvFfmpeg filepath filepath true].
Proof.
  intros Hs Ho filepath. subst filepath.
  assert (Hname : PyStr.contains "/" (stem +:+ String "."%char "wav") = false).
  { rewrite contains_app, Hs. reflexivity. }
  assert (Hres : resolve_out_path (stem +:+ ".wav") None = stem +:+ ".wav").
  { unfold resolve_out_path, _default_output_path.
    change (stem +:+ ".wav") with (stem +:+ String "."%char "wav").
    rewrite (basename_plain _ Hname). by rewrite splitext_suffix. }
  split; [exact Hres |]. split.
  - intros Hex. start_run. unfold main. rewrite Hres.
    wp_go; try congruence; reflexivity.
  - start_run. unfold main. rewrite Hres. wp_go; reflexivity.
Qed.

Lemma wav_input_is_its_own_output_witness :
  let env := sample_env CYes true decoded removable no_race in
  let fs0 := sample_fs_song in
  resolve_out_path ("song" +:+ ".wav") None = "song" +:+ ".wav" /\
  (exists_in fs0 ("song" +:+ ".wav") = true ->
   prompts (trace (final (run env ("song" +:+ ".wav") None (Some 2) false fs0)))
     = [EvConfirm (confirm_prompt ("song" +:+ ".wav"))]) /\
  transcodes (trace (final (run env ("song" +:+ ".wav") None None true fs0)))
    = [EvFfmpeg ("song" +:+ ".wav") ("song" +:+ ".wav") true].
Proof.
  apply (wav_input_is_its_own_output (sample_env CYes true decoded removable no_race)
           "song" (Some 2) sample_fs_song); reflexivity.
Defined.

(** X13.  The rendering of the semitone count in the success line
    determines the count. *)
Theorem format_plus_d_inj (a b : Z) :
  format_plus_d a = format_plus_d b -> a = b.
Proof.
  intros H.
  destruct (format_plus_d_spec a) as (da & Ha & Hda & _).
  destruct (format_plus_d_spec b) as (db & Hb & Hdb & _).
  rewrite Ha, Hb in H. injection H as Hsign Hdig. subst db.
  rewrite Hda in Hdb. injection Hdb as Habs.
  apply DecimalN.Unsigned.to_uint_inj in Habs.
  destruct (a <? 0) eqn:Ea, (b <? 0) eqn:Eb; try discriminate Hsign.
  - apply Z.ltb_lt in Ea, Eb. lia.
  - apply Z.ltb_ge in Ea, Eb. lia.
Qed.

Lemma format_plus_d_inj_witness : 3 = 3.
Proof. apply (format_plus_d_inj 3 3). reflexivity. Defined.

Lemma continuation_not_ascii (c : ascii) :
  Utf8.is_continuation c = true -> (Utf8.byte c <? 128) = false.
Proof.
  unfold Utf8.is_continuation. intros [H1 H2]%andb_prop.
  apply Z.leb_le in H1. apply Z.ltb_ge. lia.
Qed.

Lemma second_of_3_continuation (b0 : Z) (c : ascii) :
  Utf8.second_of_3 b0 c = true -> Utf8.is_continuation c = true.
Proof. unfold Utf8.second_of_3. by intros [H _]%andb_prop. Qed.

Lemma second_of_4_continuation (b0 : Z) (c : ascii) :
  Utf8.second_of_4 b0 c = true -> Utf8.is_continuation c = true.
Proof. unfold Utf8.second_of_4. by intros [H _]%andb_prop. Qed.

Lemma keep_ascii_drop (c : ascii) (r : string) :
  (Utf8.byte c <? 128) = false -> keep_ascii (String c r) = keep_ascii r.
Proof. intros H. simpl. by rewrite H. Qed.

Ltac drop_heads :=
  repeat match goal with
         | H : Utf8.second_of_3 _ _ = true |- _ => apply second_of_3_continuation in H
         | H : Utf8.second_of_4 _ _ = true |- _ => apply second_of_4_continuation in H
         | H : Utf8.is_continuation _ = true |- _ => apply continuation_not_ascii in H
         end;
  repeat (rewrite keep_ascii_drop by assumption).

Lemma decode_ignore_bounded (n : nat) :
  forall s, (String.length s <= n)%nat ->
    keep_ascii (Utf8.decode_ignore s) = keep_ascii s /\
    (String.length (Utf8.decode_ignore s) <= String.length s)%nat.
Proof.
  induction n as [|n IH]; intros s Hn.
  - destruct s; [done | simpl in Hn; lia].
  - destruct s as [|c0 t1]; [done |].
    assert (H1 : (String.length t1 <= n)%nat) by (simpl in Hn; lia).
    cbn [Utf8.decode_ignore]. cbv zeta.
    destruct (Utf8.byte c0 <? 128) eqn:E0.
    { destruct (IH t1 H1) as [Ha Hl]. split.
      - simpl. by rewrite E0, Ha.
      - simpl. lia. }
    rewrite (keep_ascii_drop c0 t1 E0).
    destruct (Utf8.byte c0 <? 194).
    { destruct (IH t1 H1) as [Ha Hl]. split; [exact Ha | simpl; lia]. }
    destruct (Utf8.byte c0 <? 224).
    { destruct t1 as [|c1 t2]; [split; [done | simpl; lia] |].
      assert (H2 : (String.length t2 <= n)%nat) by (simpl in H1; lia).
      destruct (Utf8.is_continuation c1) eqn:E1.
      - destruct (IH t2 H2) as [Ha Hl]. split.
        + rewrite (keep_ascii_drop c0 _ E0). drop_heads. exact Ha.
        + simpl. lia.
      - destruct (IH _ H1) as [Ha Hl]. split; [exact Ha | simpl in *; lia]. }
    destruct (Utf8.byte c0 <? 240).
    { destruct t1 as [|c1 t2]; [split; [done | simpl; lia] |].
      assert (H2 : (String.length t2 <= n)%nat) by (simpl in H1; lia).
      destruct (Utf8.second_of_3 (Utf8.byte c0) c1) eqn:E1.
      - destruct t2 as [|c2 t3].
        { split; [| simpl; lia]. drop_heads. reflexivity. }
        assert (H3 : (String.length t3 <= n)%nat) by (simpl in H2; lia).
        destruct (Utf8.is_continuation c2) eqn:E2.
        + destruct (IH t3 H3) as [Ha Hl]. split.
          * rewrite (keep_ascii_drop c0 _ E0). drop_heads. exact Ha.
          * simpl. lia.
        + destruct (IH _ H2) as [Ha Hl]. split.
          * drop_heads. exact Ha.
          * simpl in *. lia.
      - destruct (IH _ H1) as [Ha Hl]. split; [exact Ha | simpl in *; lia]. }
    destruct (Utf8.byte c0 <? 245).
    { destruct t1 as [|c1 t2]; [split; [done | simpl; lia] |].
      assert (H2 : (String.length t2 <= n)%nat) by (simpl in H1; lia).
      destruct (Utf8.second_of_4 (Utf8.byte c0) c1) eqn:E1.
      - destruct t2 as [|c2 t3].
        { split; [| simpl; lia]. drop_heads. reflexivity. }
        assert (H3 : (String.length t3 <= n)%nat) by (simpl in H2; lia).
        destruct (Utf8.is_continuation c2) eqn:E2.
        + destruct t3 as [|c3 t4].
          { split; [| simpl; lia]. drop_heads. reflexivity. }
          assert (H4 : (String.length t4 <= n)%nat) by (simpl in H3; lia).
          destruct (Utf8.is_continuation c3) eqn:E3.
          * destruct (IH t4 H4) as [Ha Hl]. split.
            -- rewrite (keep_ascii_drop c0 _ E0). drop_heads. exact Ha.
            -- simpl. lia.
          * destruct (IH _ H3) as [Ha Hl]. split.
            -- drop_heads. exact Ha.
            -- simpl in *. lia.
        + destruct (IH _ H2) as [Ha Hl]. split.
          * drop_heads. exact Ha.
          * simpl in *. lia.
      - destruct (IH _ H1) as [Ha Hl]. split; [exact Ha | simpl in *; lia]. }
    destruct (IH t1 H1) as [Ha Hl]. split; [exact Ha | simpl; lia].
Qed.

Ltac redecode :=
  cbn [Utf8.decode_ignore]; cbv zeta;
  repeat match goal with
         | E : ?t = _ |- context [if ?t then _ else _] => rewrite E
         end.

Lemma decode_ignore_stable (n : nat) :
  forall s, (String.length s <= n)%nat ->
    Utf8.decode_ignore (Utf8.decode_ignore s) = Utf8.decode_ignore s.
Proof.
  induction n as [|n IH]; intros s Hn.
  - destruct s; [done | simpl in Hn; lia].
  - destruct s as [|c0 t1]; [done |].
    assert (H1 : (String.length t1 <= n)%nat) by (simpl in Hn; lia).
    cbn [Utf8.decode_ignore]. cbv zeta.
    destruct (Utf8.byte c0 <? 128) eqn:E0.
    { redecode. by rewrite (IH t1 H1). }
    destruct (Utf8.byte c0 <? 194) eqn:Ea; [by apply IH |].
    destruct (Utf8.byte c0 <? 224) eqn:Eb.
    { destruct t1 as [|c1 t2]; [done |].
      assert (H2 : (String.length t2 <= n)%nat) by (simpl in H1; lia).
      destruct (Utf8.is_continuation c1) eqn:E1; [| by apply IH].
      redecode. by rewrite (IH t2 H2). }
    destruct (Utf8.byte c0 <? 240) eqn:Ec.
    { destruct t1 as [|c1 t2]; [done |].
      assert (H2 : (String.length t2 <= n)%nat) by (simpl in H1; lia).
      destruct (Utf8.second_of_3 (Utf8.byte c0) c1) eqn:E1; [| by apply IH].
      destruct t2 as [|c2 t3]; [done |].
      assert (H3 : (String.length t3 <= n)%nat) by (simpl in H2; lia).
      destruct (Utf8.is_continuation c2) eqn:E2; [| by apply IH].
      redecode. by rewrite (IH t3 H3). }
    destruct (Utf8.byte c0 <? 245) eqn:Ed; [| by apply IH].
    destruct t1 as [|c1 t2]; [done |].
    assert (H2 : (String.length t2 <= n)%nat) by (simpl in H1; lia).
    destruct (Utf8.second_of_4 (Utf8.byte c0) c1) eqn:E1; [| by apply IH].
    destruct t2 as [|c2 t3]; [done |].
    assert (H3 : (String.length t3 <= n)%nat) by (simpl in H2; lia).
    destruct (Utf8.is_continuation c2) eqn:E2; [| by apply IH].
    destruct t3 as [|c3 t4]; [done |].
    assert (H4 : (String.length t4 <= n)%nat) by (simpl in H3; lia).
    destruct (Utf8.is_continuation c3) eqn:E3; [| by apply IH].
    redecode. by rewrite (IH t4 H4).
Qed.

Lemma byte_chr (z : Z) : 0 <= z < 256 -> Utf8.byte (chr z) = z.
Proof.
  intros H. unfold Utf8.byte, chr. rewrite N_ascii_embedding; lia.
Qed.

Ltac arith := Z.div_mod_to_equations; lia.

Ltac decide_tests :=
  repeat match goal with
         | |- context [?a <? ?b] =>
             first [ replace (a <? b) with true by (symmetry; apply Z.ltb_lt; arith)
                   | replace (a <? b) with false by (symmetry; apply Z.ltb_ge; arith) ]
         | |- context [?a <=? ?b] =>
             first [ replace (a <=? b) with true by (symmetry; apply Z.leb_le; arith)
                   | replace (a <=? b) with false by (symmetry; apply Z.leb_gt; arith) ]
         | |- context [?a =? ?b] =>
             first [ replace (a =? b) with true by (symmetry; apply Z.eqb_eq; arith)
                   | replace (a =? b) with false by (symmetry; apply Z.eqb_neq; arith) ]
         end.

Lemma decode_ignore_encode1 (cp : Z) (rest : string) :
  scalar cp = true ->
  Utf8.decode_ignore (encode1 cp +:+ rest) = encode1 cp +:+ Utf8.decode_ignore rest.
Proof.
  unfold scalar. intros [[H0 H1]%andb_prop H2]%andb_prop.
  apply Z.leb_le in H0, H1. apply negb_true_iff in H2.
  unfold encode1.
  destruct (cp <? 128) eqn:E1; [apply Z.ltb_lt in E1 | apply Z.ltb_ge in E1].
  { rewrite append_cons, append_nil. cbn [Utf8.decode_ignore]. cbv zeta.
    rewrite byte_chr by arith. by decide_tests. }
  destruct (cp <? 2048) eqn:E2; [apply Z.ltb_lt in E2 | apply Z.ltb_ge in E2].
  { rewrite !append_cons, append_nil. cbn [Utf8.decode_ignore]. cbv zeta.
    unfold Utf8.is_continuation.
    rewrite !byte_chr by arith. by decide_tests. }
  destruct (cp <? 65536) eqn:E3; [apply Z.ltb_lt in E3 | apply Z.ltb_ge in E3].
  { rewrite !append_cons, append_nil. cbn [Utf8.decode_ignore]. cbv zeta.
    unfold Utf8.second_of_3, Utf8.is_continuation.
    rewrite !byte_chr by arith.
    assert (Hs : cp < 55296 \/ 57343 < cp).
    { destruct (55296 <=? cp) eqn:A; [| apply Z.leb_gt in A; lia].
      destruct (cp <=? 57343) eqn:B; [discriminate | apply Z.leb_gt in B; lia]. }
    destruct (128 + cp / 64 mod 64 <? 160) eqn:E4;
      [apply Z.ltb_lt in E4 | apply Z.ltb_ge in E4]; by decide_tests. }
  rewrite !append_cons, append_nil. cbn [Utf8.decode_ignore]. cbv zeta.
  unfold Utf8.second_of_4, Utf8.is_continuation.
  rewrite !byte_chr by arith.
  destruct (128 + cp / 4096 mod 64 <? 144) eqn:E4;
    [apply Z.ltb_lt in E4 | apply Z.ltb_ge in E4]; by decide_tests.
Qed.

Lemma decode_ignore_encode (cps : list Z) :
  forallb scalar cps = true ->
  Utf8.decode_ignore (encode cps) = encode cps.
Proof.
  induction cps as [|cp r IH]; [done |].
  cbn [forallb encode]. intros [Hc Hr]%andb_prop.
  rewrite (decode_ignore_encode1 cp _ Hc). by rewrite (IH Hr).
Qed.

(** X14.  Decoding the captured diagnostic leaves well-formed text alone:
    the UTF-8 encoding of any sequence of Unicode scalar values comes out
    unchanged.  On arbitrary bytes it keeps every ASCII character, in
    order, never makes the text longer, and gives a text that decoding
    again leaves unchanged. *)
Theorem diagnostic_decoding (cps : list Z) (b : string) :
  forallb scalar cps = true ->
  stderr_str (Some (encode cps)) = encode cps /\
  keep_ascii (stderr_str (Some b)) = keep_ascii b /\
  (String.length (stderr_str (Some b)) <= String.length b)%nat /\
  stderr_str (Some (stderr_str (Some b))) = stderr_str (Some b).
Proof.
  intros Hcps.
  destruct (decode_ignore_bounded (String.length b) b (Nat.le_refl _)) as [Ha Hl].
  split; [exact (decode_ignore_encode cps Hcps) |].
  split; [exact Ha |]. split; [exact Hl |].
  apply (decode_ignore_stable (String.length b)). apply Nat.le_refl.
Qed.

Lemma diagnostic_decoding_witness :
  let cps := [104; 233; 8364; 128512] in
  let b := String (chr 255) (String (chr 111) (String (chr 195) "k")) in
  stderr_str (Some (encode cps)) = encode cps /\
  keep_ascii (stderr_str (Some b)) = keep_ascii b /\
  (String.length (stderr_str (Some b)) <= String.length b)%nat /\
  stderr_str (Some (stderr_str (Some b))) = stderr_str (Some b).
Proof.
  apply (diagnostic_decoding [104; 233; 8364; 128512]
           (String (chr 255) (String (chr 111) (String (chr 195) "k")))).
  reflexivity.
Defined.

(** ** The outcome as a whole *)

(** X15.  The first step that fails decides what a run reports, in the
    order guard, then transcode in the direct path, or import, temporary
    file, transcode, load, shift and write in the transpose path; a run
    in which none fails ends with status 0 and an empty error stream.  A
    transcode without [-y] that finds a file at the output fails the run
    only when ffmpeg itself exits with an error.  The removals, of the old
    output and of the temporary file, play no part. *)
Theorem first_failure_decides (env : Env) (filepath : string)
    (output : option string) (transpose : option Z) (yes : bool)
    (fs0 : filesystem) :
  let o := run env filepath output transpose yes fs0 in
  match expected_report env filepath output transpose yes fs0 with
  | None => exit_code o = 0 /\ stderr_text o = []
  | Some m => exit_code o = 1 /\ stderr_text o = [m]
  end.
Proof. exact (run_report env filepath output transpose yes fs0). Qed.
